(** * CorBas backend: the fallback semantic classifier, the text annotator
      and the PDF highlighter of [corbas_backend.py]

    The development embeds the first-party logic of the Flask server:
    [get_semantic_fallback], the body of the [/analyze] handler and the body
    of the [/highlight_pdf] handler.  The collaborators the server delegates
    to -- Flask's request decoding, the spaCy/PyMUSAS pipeline, [json.loads],
    PyMuPDF and the wall clock -- are taken as parameters, so every theorem
    holds for whatever these libraries compute.

    Conventions.
    - A Python [str] is a [string]; the model covers ASCII text, which is all
      the gazetteers, the tag codes and the colour syntax contain.
    - A Python [set] of strings is a [gset string].
    - Values decoded from JSON are [pyobj]; Python's dynamic checks on them
      (truthiness, [in], subscripting, [len], method lookup) are written out,
      with the exception they raise.
    - Python floats are binary64 primitive floats.
    - Exceptions are values of [exn]; the handlers' [try/except Exception]
      is [match] on a [result]. *)

From Stdlib Require Import ZArith Ascii Floats Strings.Byte.
From stdpp Require Import base decidable list gmap strings.

Set Warnings "-register-all".

(* ====================================================================== *)
(** * Part I.  Definitions                                                 *)
(* ====================================================================== *)

(** ** Python strings *)

Definition is_ascii_upper (c : ascii) : bool :=
  let n := nat_of_ascii c in (65 <=? n)%nat && (n <=? 90)%nat.

Definition char_lower (c : ascii) : ascii :=
  if is_ascii_upper c then ascii_of_nat (nat_of_ascii c + 32) else c.

(** [str.lower()] *)
Fixpoint lower (s : string) : string :=
  match s with
  | EmptyString => EmptyString
  | String c s' => String (char_lower c) (lower s')
  end.

Definition is_space (c : ascii) : bool :=
  let n := nat_of_ascii c in
  ((9 <=? n)%nat && (n <=? 13)%nat) || ((28 <=? n)%nat && (n <=? 32)%nat).

Fixpoint lstrip (s : string) : string :=
  match s with
  | EmptyString => EmptyString
  | String c s' => if is_space c then lstrip s' else s
  end.

Fixpoint rstrip (s : string) : string :=
  match s with
  | EmptyString => EmptyString
  | String c s' =>
      match rstrip s' with
      | EmptyString => if is_space c then EmptyString else String c EmptyString
      | r => String c r
      end
  end.

(** [str.strip()] *)
Definition strip (s : string) : string := rstrip (lstrip s).

(** [s.lstrip('#')] *)
Fixpoint lstrip_hash (s : string) : string :=
  match s with
  | String "#" s' => lstrip_hash s'
  | _ => s
  end.

(** The slice [s[a:b]] for [0 <= a <= b]; like Python it is cut short, and
    does not fail, when [s] is too short. *)
Definition slice (a b : nat) (s : string) : string :=
  String.substring a (b - a) s.

(** [needle in s] on strings. *)
Fixpoint str_contains (needle s : string) : bool :=
  String.prefix needle s
  || match s with
     | EmptyString => false
     | String _ s' => str_contains needle s'
     end.

(** The text before the last ['.'], when there is one. *)
Fixpoint before_last_dot (s : string) : option string :=
  match s with
  | EmptyString => None
  | String c s' =>
      match before_last_dot s' with
      | Some t => Some (String c t)
      | None => if Ascii.eqb c "." then Some EmptyString else None
      end
  end.

(** [s.rsplit('.', 1)[0]] *)
Definition rsplit_dot_head (s : string) : string :=
  default s (before_last_dot s).

(** The double quote, and [f'"{phrase}"']. *)
Definition dquote : string := String (ascii_of_nat 34) EmptyString.
Definition quoted (phrase : string) : string := dquote +:+ phrase +:+ dquote.

(** ** Exceptions and results *)

Record exn : Type := Exn { exn_class : string; exn_str : string }.

Inductive result (A : Type) : Type :=
| Ok (a : A)
| Raise (e : exn).
Arguments Ok {A} a.
Arguments Raise {A} e.

Definition rbind {A B} (r : result A) (k : A -> result B) : result B :=
  match r with
  | Ok a => k a
  | Raise e => Raise e
  end.

Declare Scope result_scope.
Delimit Scope result_scope with result.
Notation "'let?' x := r 'in' k" := (rbind r (fun x => k))
  (at level 10, x pattern, r at level 100, k at level 200) : result_scope.

Definition TypeError (msg : string) : exn := Exn "TypeError" msg.
Definition ValueError (msg : string) : exn := Exn "ValueError" msg.
Definition AttributeError (msg : string) : exn := Exn "AttributeError" msg.
Definition KeyError (msg : string) : exn := Exn "KeyError" msg.
Definition IndexError (msg : string) : exn := Exn "IndexError" msg.

(** ** Integer literals in base 16: [int(s, 16)] *)

Definition hex_digit (c : ascii) : option Z :=
  let n := nat_of_ascii c in
  if (48 <=? n)%nat && (n <=? 57)%nat then Some (Z.of_nat (n - 48))
  else if (97 <=? n)%nat && (n <=? 102)%nat then Some (Z.of_nat (n - 87))
  else if (65 <=? n)%nat && (n <=? 70)%nat then Some (Z.of_nat (n - 55))
  else None.

(** What follows a digit: more digits, each preceded by at most one
    underscore. *)
Fixpoint hex_tail (acc : Z) (s : string) : option Z :=
  match s with
  | EmptyString => Some acc
  | String "_" (String c s') =>
      match hex_digit c with
      | Some d => hex_tail (16 * acc + d) s'
      | None => None
      end
  | String c s' =>
      match hex_digit c with
      | Some d => hex_tail (16 * acc + d) s'
      | None => None
      end
  end.

Definition hex_number (s : string) : option Z :=
  match s with
  | EmptyString => None
  | String c s' =>
      match hex_digit c with
      | Some d => hex_tail d s'
      | None => None
      end
  end.

(** Python accepts surrounding whitespace, a sign, the prefix [0x] or [0X]
    (an underscore may follow it) and single underscores between digits. *)
Definition py_int16 (s : string) : result Z :=
  let t := strip s in
  let '(negative, u) :=
    match t with
    | String "-" r => (true, r)
    | String "+" r => (false, r)
    | _ => (false, t)
    end in
  let digits :=
    match u with
    | String "0" (String x r) =>
        if Ascii.eqb x "x" || Ascii.eqb x "X"
        then match r with String "_" r' => r' | _ => r end
        else u
    | _ => u
    end in
  match hex_number digits with
  | Some n => Ok (if negative then (- n)%Z else n)
  | None =>
      Raise (ValueError ("invalid literal for int() with base 16: '" +:+ s +:+ "'"))
  end.

(** ** Values decoded from JSON *)

Inductive pyobj : Type :=
| PNone
| PBool (b : bool)
| PInt (n : Z)
| PFloat (f : float)
| PStr (s : string)
| PList (l : list pyobj)
| PDict (kv : list (string * pyobj)).

Definition py_type_name (v : pyobj) : string :=
  match v with
  | PNone => "NoneType"
  | PBool _ => "bool"
  | PInt _ => "int"
  | PFloat _ => "float"
  | PStr _ => "str"
  | PList _ => "list"
  | PDict _ => "dict"
  end.

(** Truth value testing: [None], [False], zero, and empty strings, lists and
    dicts are false. *)
Definition py_truthy (v : pyobj) : bool :=
  match v with
  | PNone => false
  | PBool b => b
  | PInt n => negb (n =? 0)%Z
  | PFloat f => negb (PrimFloat.eqb f 0%float)
  | PStr s => negb (String.eqb s "")
  | PList l => match l with [] => false | _ :: _ => true end
  | PDict kv => match kv with [] => false | _ :: _ => true end
  end.

(** A dict is the list of its items in insertion order; a key is looked up
    from the front. *)
Fixpoint dict_lookup (key : string) (kv : list (string * pyobj)) : option pyobj :=
  match kv with
  | [] => None
  | (k, v) :: kv' => if String.eqb k key then Some v else dict_lookup key kv'
  end.

Definition is_str (key : string) (v : pyobj) : bool :=
  match v with
  | PStr s => String.eqb s key
  | _ => false
  end.

(** [key in data], for a string [key] *)
Definition py_contains (key : string) (data : pyobj) : result bool :=
  match data with
  | PDict kv => Ok (match dict_lookup key kv with Some _ => true | None => false end)
  | PList l => Ok (existsb (is_str key) l)
  | PStr s => Ok (str_contains key s)
  | _ => Raise (TypeError ("argument of type '" +:+ py_type_name data
                            +:+ "' is not iterable"))
  end.

(** [data[key]], for a string [key] *)
Definition py_getitem (key : string) (data : pyobj) : result pyobj :=
  match data with
  | PDict kv =>
      match dict_lookup key kv with
      | Some v => Ok v
      | None => Raise (KeyError ("'" +:+ key +:+ "'"))
      end
  | PList _ => Raise (TypeError "list indices must be integers or slices, not str")
  | PStr _ => Raise (TypeError "string indices must be integers, not 'str'")
  | _ => Raise (TypeError ("'" +:+ py_type_name data
                            +:+ "' object is not subscriptable"))
  end.

(** [data.get(key, default)] *)
Definition py_get (key : string) (dflt : pyobj) (data : pyobj) : result pyobj :=
  match data with
  | PDict kv => Ok (default dflt (dict_lookup key kv))
  | _ => Raise (AttributeError ("'" +:+ py_type_name data
                                 +:+ "' object has no attribute 'get'"))
  end.

(** [len(v)] *)
Definition py_len (v : pyobj) : result nat :=
  match v with
  | PStr s => Ok (String.length s)
  | PList l => Ok (length l)
  | PDict kv => Ok (length kv)
  | _ => Raise (TypeError ("object of type '" +:+ py_type_name v
                            +:+ "' has no len()"))
  end.

Fixpoint chars (s : string) : list pyobj :=
  match s with
  | EmptyString => []
  | String c s' => PStr (String c EmptyString) :: chars s'
  end.

(** The items a [for] loop over [v] visits. *)
Definition py_iter (v : pyobj) : result (list pyobj) :=
  match v with
  | PList l => Ok l
  | PStr s => Ok (chars s)
  | PDict kv => Ok (map (fun item => PStr (fst item)) kv)
  | _ => Raise (TypeError ("'" +:+ py_type_name v +:+ "' object is not iterable"))
  end.

(** [phrase.lower()] on anything but a [str]. *)
Definition no_lower (v : pyobj) : exn :=
  AttributeError ("'" +:+ py_type_name v +:+ "' object has no attribute 'lower'").

(** ** HTTP responses *)

Inductive response : Type :=
| Jsonify (body : pyobj) (status : Z)
| SendFile (data : list byte) (mimetype : string) (download_name : string).

Definition status_code (r : response) : Z :=
  match r with
  | Jsonify _ status => status
  | SendFile _ _ _ => 200
  end.

Definition error_body (msg : string) : pyobj := PDict [("error", PStr msg)].

(** ** Tokens delivered by the spaCy pipeline *)

(** The custom extension [token._.pymusas_tags]: not registered at all
    ([hasattr] is false), or registered with a value that is [None] or a
    ranked list of tag codes. *)
Inductive underscore_attr : Type :=
| AttrUnset
| AttrSet (v : option (list string)).

Record token : Type := Token {
  text : string;
  pos_ : string;
  tag_ : string;
  dep_ : string;
  head_i : Z;
  lemma_ : string;
  is_stop : bool;
  is_punct : bool;
  pymusas_tags : underscore_attr
}.

(** ** The fallback semantic classifier *)

Definition emotion_positive : gset string :=
  {[ "happy"; "joy"; "delighted"; "pleased"; "excited"; "love"; "wonderful" ]}.
Definition emotion_negative : gset string :=
  {[ "sad"; "angry"; "fear"; "hate"; "anxious"; "worried"; "upset"; "depressed" ]}.
Definition movement_verbs : gset string :=
  {[ "go"; "come"; "move"; "walk"; "run"; "travel"; "arrive"; "leave"; "enter"; "exit" ]}.
Definition speech_verbs : gset string :=
  {[ "say"; "tell"; "speak"; "talk"; "communicate"; "discuss"; "mention"; "ask"; "answer" ]}.
Definition thought_verbs : gset string :=
  {[ "think"; "believe"; "know"; "understand"; "consider"; "realize"; "remember"; "forget" ]}.
Definition positive_adj : gset string :=
  {[ "good"; "great"; "excellent"; "wonderful"; "amazing"; "beautiful"; "perfect"; "nice"; "fine" ]}.
Definition negative_adj : gset string :=
  {[ "bad"; "poor"; "terrible"; "awful"; "horrible"; "ugly"; "wrong"; "worse"; "worst" ]}.
Definition time_words : gset string :=
  {[ "today"; "tomorrow"; "yesterday"; "now"; "then"; "soon"; "later"; "before"; "after" ]}.
Definition place_words : gset string :=
  {[ "here"; "there"; "where"; "place"; "location"; "home"; "school"; "office" ]}.

Definition get_semantic_fallback (tok : token) : string :=
  let pos := pos_ tok in
  let lemma := lower (lemma_ tok) in
  if decide (lemma ∈ emotion_positive) then "E1.1+"
  else if decide (lemma ∈ emotion_negative) then "E1.1-"
  else if decide (lemma ∈ movement_verbs) then "M1"
  else if decide (lemma ∈ speech_verbs) then "Q2.2"
  else if decide (lemma ∈ thought_verbs) then "X2.1"
  else if decide (lemma ∈ positive_adj) then "A5.1+"
  else if decide (lemma ∈ negative_adj) then "A5.1-"
  else if decide (lemma ∈ time_words) then "T1"
  else if decide (lemma ∈ place_words) then "M7"
  else if decide (pos = "NOUN") then "O2"
  else if decide (pos = "PROPN") then "Z3"
  else if decide (pos = "VERB") then "A3+"
  else if decide (pos = "ADJ") then "A5"
  else if decide (pos = "ADV") then "A13"
  else if decide (pos = "NUM") then "N1"
  else if decide (pos = "ADP") then "Z5"
  else if decide (pos = "DET") then "Z5"
  else if decide (pos = "PRON") then "Z8"
  else "Z99".

(** A token as the tests build it: only lemma and part of speech matter to
    the classifier. *)
Definition mk_token (lemma pos : string) : token :=
  {| text := lemma; pos_ := pos; tag_ := ""; dep_ := ""; head_i := 0;
     lemma_ := lemma; is_stop := false; is_punct := false;
     pymusas_tags := AttrUnset |}.

(** The cascade as the specification words it: nine (set, code) rules in
    priority order, the first rule whose set holds the lemma decides. *)
Definition spec_gazetteer : list (gset string * string) :=
  [ (emotion_positive, "E1.1+"); (emotion_negative, "E1.1-");
    (movement_verbs, "M1"); (speech_verbs, "Q2.2"); (thought_verbs, "X2.1");
    (positive_adj, "A5.1+"); (negative_adj, "A5.1-");
    (time_words, "T1"); (place_words, "M7") ].

Fixpoint spec_first_match (rules : list (gset string * string)) (lemma : string)
    : option string :=
  match rules with
  | [] => None
  | (words, code) :: rules' =>
      if decide (lemma ∈ words) then Some code else spec_first_match rules' lemma
  end.

(** The codes the part-of-speech table can give, and all codes. *)
Definition pos_codes : list string :=
  ["O2"; "Z3"; "A3+"; "A5"; "A13"; "N1"; "Z5"; "Z8"; "Z99"].
Definition gazetteer_codes : list string := map snd spec_gazetteer.
Definition listed_pos : list string :=
  ["NOUN"; "PROPN"; "VERB"; "ADJ"; "ADV"; "NUM"; "ADP"; "DET"; "PRON"].

(** ** The text annotator: [/analyze] *)

Definition hasattr_pymusas_tags (tok : token) : bool :=
  match pymusas_tags tok with
  | AttrUnset => false
  | AttrSet _ => true
  end.

(** The semantic category reported for one token. *)
Definition primary_semantic (HAS_PYMUSAS : bool) (tok : token) : string :=
  if HAS_PYMUSAS && hasattr_pymusas_tags tok then
    match pymusas_tags tok with
    | AttrSet (Some (first :: _)) => first
    | _ => "Z99"
    end
  else get_semantic_fallback tok.

Definition token_data (HAS_PYMUSAS : bool) (tok : token) : pyobj :=
  PDict [ ("word", PStr (text tok));
          ("pos", PStr (pos_ tok));
          ("tag", PStr (tag_ tok));
          ("semantic", PStr (primary_semantic HAS_PYMUSAS tok));
          ("dep", PStr (dep_ tok));
          ("head", PInt (head_i tok));
          ("lemma", PStr (lemma_ tok));
          ("is_stop", PBool (is_stop tok));
          ("is_punct", PBool (is_punct tok)) ].

Definition analysis_result (HAS_PYMUSAS : bool) (tokens : list pyobj)
    (corpus_name : pyobj) : pyobj :=
  PDict [ ("tokens", PList tokens);
          ("num_tokens", PInt (Z.of_nat (length tokens)));
          ("corpus_name", corpus_name);
          ("has_pymusas", PBool HAS_PYMUSAS) ].

(** [not data or 'text' not in data]; [or] does not look at its right
    operand when the left one holds. *)
Definition text_missing (data : pyobj) : result bool :=
  if negb (py_truthy data) then Ok true
  else (let? present := py_contains "text" data in Ok (negb present))%result.

Section Analyze.
(** The startup flag, the pipeline [nlp] and what [request.get_json()]
    gives for the request at hand. *)
Variable HAS_PYMUSAS : bool.
Variable nlp : pyobj -> result (list token).
Variable get_json : result pyobj.

(** The statements under [try]. *)
Definition analyze_body : result response :=
  (let? data := get_json in
   let? missing := text_missing data in
   if missing then Ok (Jsonify (error_body "No text provided") 400)
   else
     let? text := py_getitem "text" data in
     let? corpus_name := py_get "corpus_name" (PStr "unnamed") data in
     let? _ := py_len text in
     let? doc := nlp text in
     let tokens := map (token_data HAS_PYMUSAS) doc in
     Ok (Jsonify (analysis_result HAS_PYMUSAS tokens corpus_name) 200))%result.

Definition analyze_text : response :=
  match analyze_body with
  | Ok r => r
  | Raise e => Jsonify (error_body (exn_str e)) 500
  end.
End Analyze.

(** ** The PDF highlighter: [/highlight_pdf] *)

(** [n / 255] on an [int] [n]; the quotient of the two binary64 values is
    Python's result as long as [n] is exactly representable, which every
    two-character literal is. *)
Definition div255 (n : Z) : float :=
  let q := (PrimFloat.of_uint63 (Uint63.of_Z (Z.abs n)) / 255)%float in
  if (n <? 0)%Z then PrimFloat.opp q else q.

Definition rgb : Type := float * float * float.

(** Lines 160-164: the colour field, from hex to normalised RGB. *)
Definition parse_color (color : string) : result rgb :=
  let color_hex := lstrip_hash color in
  (let? r := py_int16 (slice 0 2 color_hex) in
   let? g := py_int16 (slice 2 4 color_hex) in
   let? b := py_int16 (slice 4 6 color_hex) in
   Ok (div255 r, div255 g, div255 b))%result.

(** The binary64 value of the literal [0.4]. *)
Definition opacity_value : float := 0x1.999999999999ap-2%float.

Record datetime : Type := Datetime {
  year : nat; month : nat; day : nat;
  hour : nat; minute : nat; second : nat
}.

Definition digit (n : nat) : ascii := ascii_of_nat (48 + n mod 10).

Definition pad2 (n : nat) : string :=
  String (digit (n / 10)) (String (digit n) EmptyString).

Definition pad4 (n : nat) : string :=
  String (digit (n / 1000)) (String (digit (n / 100)) (pad2 n)).

(** [strftime("%Y%m%d%H%M%S")], for years of four digits. *)
Definition strftime_YmdHMS (t : datetime) : string :=
  pad4 (year t) +:+ pad2 (month t) +:+ pad2 (day t)
  +:+ pad2 (hour t) +:+ pad2 (minute t) +:+ pad2 (second t).

Record Rect : Type := mkRect { x0 : float; y0 : float; x1 : float; y1 : float }.

(** A highlight annotation with what the handler sets on it. *)
Record annot : Type := Annot {
  annot_rect : Rect;
  annot_stroke : rgb;
  annot_opacity : float;
  annot_title : string;
  annot_content : string;
  annot_creationDate : string
}.

(** The calls made on a page and on a fresh annotation. *)
Inductive annot_call : Type :=
| AddHighlightAnnot (inst : Rect)
| SetColors (stroke : rgb)
| SetOpacity (opacity : float)
| SetInfo (title content creationDate : string)
| Update.

Inductive engine_call : Type :=
| CallOpen (stream : list byte)
| CallSearchFor (page_num : nat) (needle : string)
| CallAnnot (page_num : nat) (c : annot_call)
| CallWrite
| CallClose.

(** PyMuPDF as the handler uses it.  A search sees the page and the
    annotations finished so far; any call may raise. *)
Record Engine : Type := {
  Page : Type;
  fitz_open : list byte -> result (list Page);
  page_search_for : Page -> list (nat * annot) -> string -> result (list Rect);
  annot_fault : Page -> list (nat * annot) -> annot_call -> option exn;
  doc_write : list Page -> list (nat * annot) -> result (list byte)
}.

(** [json.loads] and the readings of [datetime.now()], in the order they
    are taken. *)
Record Runtime : Type := {
  json_loads : string -> result pyobj;
  now : nat -> datetime
}.

Record upload : Type := Upload { filename : string; stream : list byte }.

Record highlight_request : Type := HighlightRequest {
  files_file : option upload;
  form_phrases : option string;
  form_color : option string
}.

(** What a run leaves behind: the engine calls in order, the result of each
    search, the annotations finished, the clock readings taken, and the
    documents opened and not closed. *)
Record world : Type := World {
  w_log : list engine_call;
  w_found : list (nat * string * list Rect);
  w_annots : list (nat * annot);
  w_ticks : nat;
  w_open_docs : nat
}.

Definition init_world : world := World [] [] [] 0 0.

Definition H (A : Type) : Type := world -> result A * world.

Definition ret {A} (a : A) : H A := fun w => (Ok a, w).
Definition raise {A} (e : exn) : H A := fun w => (Raise e, w).
Definition lift {A} (r : result A) : H A := fun w => (r, w).

Definition bind {A B} (m : H A) (k : A -> H B) : H B :=
  fun w =>
    match m w with
    | (Ok a, w') => k a w'
    | (Raise e, w') => (Raise e, w')
    end.

Declare Scope H_scope.
Delimit Scope H_scope with H.
Notation "'do' x <- m ; k" := (bind m (fun x => k))
  (at level 60, x name, m at next level, right associativity) : H_scope.

(** [for x in l: body x] *)
Fixpoint for_each {A} (l : list A) (body : A -> H unit) : H unit :=
  match l with
  | [] => ret tt
  | x :: l' => (do _ <- body x; for_each l' body)%H
  end.

Definition log_call (c : engine_call) (w : world) : world :=
  World (w_log w ++ [c]) (w_found w) (w_annots w) (w_ticks w) (w_open_docs w).

Definition set_found (f : list (nat * string * list Rect)) (w : world) : world :=
  World (w_log w) f (w_annots w) (w_ticks w) (w_open_docs w).
Definition set_annots (a : list (nat * annot)) (w : world) : world :=
  World (w_log w) (w_found w) a (w_ticks w) (w_open_docs w).
Definition set_ticks (n : nat) (w : world) : world :=
  World (w_log w) (w_found w) (w_annots w) n (w_open_docs w).
Definition set_open_docs (n : nat) (w : world) : world :=
  World (w_log w) (w_found w) (w_annots w) (w_ticks w) n.

Section Highlight.
Variable E : Engine.
Variable R : Runtime.

(** [fitz.open(stream=pdf_bytes, filetype="pdf")] *)
Definition open_document (pdf_bytes : list byte) : H (list (Page E)) :=
  fun w =>
    let w1 := log_call (CallOpen pdf_bytes) w in
    match fitz_open E pdf_bytes with
    | Ok pages => (Ok pages, set_open_docs (S (w_open_docs w1)) w1)
    | Raise e => (Raise e, w1)
    end.

(** [pdf_document[page_num]] *)
Definition get_page (pages : list (Page E)) (page_num : nat) : result (Page E) :=
  match pages !! page_num with
  | Some page => Ok page
  | None => Raise (IndexError "page not in document")
  end.

(** [page.search_for(needle, flags=...)] *)
Definition search_for (page_num : nat) (page : Page E) (needle : string)
    : H (list Rect) :=
  fun w =>
    let w1 := log_call (CallSearchFor page_num needle) w in
    match page_search_for E page (w_annots w1) needle with
    | Ok found => (Ok found, set_found (w_found w1 ++ [(page_num, needle, found)]) w1)
    | Raise e => (Raise e, w1)
    end.

(** One call on the page or on the annotation under construction. *)
Definition annot_step (page_num : nat) (page : Page E) (c : annot_call) : H unit :=
  fun w =>
    let w1 := log_call (CallAnnot page_num c) w in
    match annot_fault E page (w_annots w1) c with
    | None => (Ok tt, w1)
    | Some e => (Raise e, w1)
    end.

(** [datetime.now()] *)
Definition datetime_now : H datetime :=
  fun w => (Ok (now R (w_ticks w)), set_ticks (S (w_ticks w)) w).

Definition finish_annot (page_num : nat) (a : annot) : H unit :=
  fun w => (Ok tt, set_annots (w_annots w ++ [(page_num, a)]) w).

(** [pdf_document.write()] *)
Definition write_document (pages : list (Page E)) : H (list byte) :=
  fun w =>
    let w1 := log_call CallWrite w in
    (doc_write E pages (w_annots w1), w1).

(** [pdf_document.close()] *)
Definition close_document : H unit :=
  fun w =>
    let w1 := log_call CallClose w in
    (Ok tt, set_open_docs (pred (w_open_docs w1)) w1).

(** Lines 184-193: the body of [for inst in text_instances]. *)
Definition highlight_instance (stroke : rgb) (page_num : nat) (page : Page E)
    (phrase : string) (inst : Rect) : H unit :=
  (do _ <- annot_step page_num page (AddHighlightAnnot inst);
   do _ <- annot_step page_num page (SetColors stroke);
   do _ <- annot_step page_num page (SetOpacity opacity_value);
   do t <- datetime_now;
   let creationDate := strftime_YmdHMS t in
   do _ <- annot_step page_num page (SetInfo "CorBas" (quoted phrase) creationDate);
   do _ <- annot_step page_num page Update;
   finish_annot page_num
     (Annot inst stroke opacity_value "CorBas" (quoted phrase) creationDate))%H.

(** Lines 177-193: the body of [for phrase in phrases]. *)
Definition highlight_phrase (stroke : rgb) (page_num : nat) (page : Page E)
    (phrase : pyobj) : H unit :=
  match phrase with
  | PStr s =>
      let phrase_lower := strip (lower s) in
      (do text_instances <- search_for page_num page phrase_lower;
       do more <- search_for page_num page s;
       for_each (text_instances ++ more)
                (highlight_instance stroke page_num page s))%H
  | _ => raise (no_lower phrase)
  end.

(** Lines 174-193: the body of [for page_num in range(len(pdf_document))]. *)
Definition highlight_page (stroke : rgb) (pages : list (Page E))
    (phrases : pyobj) (page_num : nat) : H unit :=
  (do page <- lift (get_page pages page_num);
   do items <- lift (py_iter phrases);
   for_each items (highlight_phrase stroke page_num page))%H.

(** The statements under [try]. *)
Definition highlight_body (req : highlight_request) : H response :=
  match files_file req with
  | None => ret (Jsonify (error_body "No file provided") 400)
  | Some file =>
      if decide (filename file = "") then
        ret (Jsonify (error_body "No file selected") 400)
      else
        (do phrases <- lift (json_loads R (default "[]" (form_phrases req)));
         if negb (py_truthy phrases) then
           ret (Jsonify (error_body "No phrases to highlight") 400)
         else
           do stroke <- lift (parse_color (default "#FFFF00" (form_color req)));
           do _ <- lift (py_len phrases);
           do pages <- open_document (stream file);
           do _ <- for_each (seq 0 (length pages))
                            (highlight_page stroke pages phrases);
           do output_bytes <- write_document pages;
           do _ <- close_document;
           ret (SendFile output_bytes "application/pdf"
                  (rsplit_dot_head (filename file) +:+ "_highlighted.pdf")))%H
  end.

(** The handler: response, and the world at its exit. *)
Definition highlight_pdf (req : highlight_request) : response * world :=
  match highlight_body req init_world with
  | (Ok r, w) => (r, w)
  | (Raise e, w) => (Jsonify (error_body (exn_str e)) 500, w)
  end.
End Highlight.

(** ** Test doubles

    Small stand-ins for the collaborators, used to run the handlers on
    concrete requests. *)

(** A pipeline that splits on blanks, tags nothing, and like spaCy refuses
    texts longer than [max_length] and inputs that are not text. *)
Definition stub_nlp (max_length : N) (text : pyobj) : result (list token) :=
  match text with
  | PStr s =>
      if (max_length <? N.of_nat (String.length s))%N
      then Raise (ValueError "[E088] Text exceeds maximum length")
      else Ok (map (fun w => mk_token w "X") (String.words s))
  | _ => Raise (ValueError "[E1041] Expected a string, Doc, or bytes as input")
  end.

(** A decoder that knows ["[]"] and the texts of [table]. *)
Definition stub_json_loads (table : list (string * pyobj)) (s : string)
    : result pyobj :=
  match dict_lookup s (("[]", PList []) :: table) with
  | Some v => Ok v
  | None => Raise (Exn "JSONDecodeError" "Expecting value: line 1 column 1 (char 0)")
  end.

Definition stub_clock (n : nat) : datetime := Datetime 2024 1 15 10 30 (n mod 60).

Definition stub_runtime (table : list (string * pyobj)) : Runtime :=
  {| json_loads := stub_json_loads table; now := stub_clock |}.

Fixpoint find_all (offset : nat) (needle s : string) : list nat :=
  (if String.prefix needle s then [offset] else [])
  ++ match s with
     | EmptyString => []
     | String _ s' => find_all (S offset) needle s'
     end.

Definition float_of_nat (n : nat) : float :=
  PrimFloat.of_uint63 (Uint63.of_Z (Z.of_nat n)).

Definition stub_rect (len offset : nat) : Rect :=
  mkRect (float_of_nat offset) 0 (float_of_nat (offset + len)) 1.

(** An engine whose documents hold the given page texts, whatever the bytes
    (but it refuses an empty stream); a search is an exact substring search,
    nothing else fails, and the output has one byte per annotation. *)
Definition stub_engine (pages : list string) : Engine :=
  {| Page := string;
     fitz_open := fun pdf_bytes =>
       match pdf_bytes with
       | [] => Raise (Exn "EmptyFileError" "cannot open empty stream")
       | _ :: _ => Ok pages
       end;
     page_search_for := fun page _ needle =>
       match needle with
       | EmptyString => Ok []
       | _ => Ok (map (stub_rect (String.length needle)) (find_all 0 needle page))
       end;
     annot_fault := fun _ _ _ => None;
     doc_write := fun _ annots => Ok (map (fun _ => x61) annots) |}.

(** ** Reading a run

    Views of the final world in which the statements about the highlighter
    are written. *)

(** The searches asked of the engine, in order. *)
Definition search_calls (log : list engine_call) : list (nat * string) :=
  flat_map (fun c => match c with
                     | CallSearchFor page_num needle => [(page_num, needle)]
                     | _ => []
                     end) log.

(** Page, region and content of the finished annotations, in order. *)
Definition annot_view (w : world) : list (nat * Rect * string) :=
  map (fun na => (fst na, annot_rect (snd na), annot_content (snd na)))
      (w_annots w).

(** One phrase on one page, as the specification describes it once the
    stripping is added: the page, the phrase, what the search for the
    lower-cased and stripped copy found, and what the search for the phrase
    as given found. *)
Record pass : Type := Pass {
  pass_page : nat;
  pass_phrase : string;
  pass_lowered : list Rect;
  pass_exact : list Rect
}.

Definition spec_pass_calls (passes : list pass) : list (nat * string) :=
  flat_map (fun q => [ (pass_page q, strip (lower (pass_phrase q)));
                       (pass_page q, pass_phrase q) ]) passes.

Definition spec_pass_found (passes : list pass) : list (nat * string * list Rect) :=
  flat_map (fun q => [ (pass_page q, strip (lower (pass_phrase q)), pass_lowered q);
                       (pass_page q, pass_phrase q, pass_exact q) ]) passes.

(** Every region of either search, once per search that found it. *)
Definition spec_pass_annots (passes : list pass) : list (nat * Rect * string) :=
  flat_map (fun q => map (fun inst => (pass_page q, inst, quoted (pass_phrase q)))
                         (pass_lowered q ++ pass_exact q)) passes.


(** Every page with every phrase, pages outermost. *)
Definition spec_pass_keys (page_count : nat) (phrases : list string)
    : list (nat * string) :=
  flat_map (fun page_num => map (pair page_num) phrases) (seq 0 page_count).

Definition pass_key (q : pass) : nat * string := (pass_page q, pass_phrase q).

(** A phrase that lower-casing and stripping leave alone is searched twice
    with the same result. *)
Definition pass_repeats (q : pass) : Prop :=
  strip (lower (pass_phrase q)) = pass_phrase q -> pass_lowered q = pass_exact q.

(** World [w'] is world [w] after the given passes. *)
Definition extends_by (passes : list pass) (w w' : world) : Prop :=
  search_calls (w_log w') = search_calls (w_log w) ++ spec_pass_calls passes /\
  w_found w' = w_found w ++ spec_pass_found passes /\
  annot_view w' = annot_view w ++ spec_pass_annots passes /\
  w_open_docs w' = w_open_docs w.

(** The world once the uploaded document is open. *)
Definition opened_world (pdf_bytes : list byte) : world :=
  set_open_docs 1 (log_call (CallOpen pdf_bytes) init_world).

(** Hoare triples over the handler monad: from a world in [P], the run ends
    in [Q] when it returns and in [Qe] when it raises. *)
Definition hoare {A} (P : world -> Prop) (m : H A)
    (Q : A -> world -> Prop) (Qe : world -> Prop) : Prop :=
  forall w, P w ->
    match m w with
    | (Ok a, w') => Q a w'
    | (Raise _, w') => Qe w'
    end.

(** What the handler sets on an annotation. *)
Definition annot_as_set (R : Runtime) (stroke : rgb) (items : list pyobj)
    (a : annot) : Prop :=
  annot_stroke a = stroke /\
  annot_opacity a = opacity_value /\
  annot_title a = "CorBas" /\
  (exists phrase, In (PStr phrase) items /\ annot_content a = quoted phrase) /\
  (exists k, annot_creationDate a = strftime_YmdHMS (now R k)).





(** The annotations of a world all carry what the handler sets. *)
Definition annots_as_set (R : Runtime) (stroke : rgb) (items : list pyobj)
    (w : world) : Prop :=
  Forall (fun na => annot_as_set R stroke items (snd na)) (w_annots w).

(** ** Predicates of the further properties *)

(** A channel of an accepted colour. *)
Definition channel_ok (c : float) : Prop :=
  PrimFloat.leb c 1 = true /\ PrimFloat.leb (div255 (-15)) c = true.

(** [s] has a ['.']. *)
Fixpoint has_dot (s : string) : bool :=
  match s with
  | EmptyString => false
  | String c s' => Ascii.eqb c "." || has_dot s'
  end.


(** What a [for] loop visits in a phrases value that is not an array. *)
Definition phrases_as_list (phrases : pyobj) : pyobj :=
  match py_iter phrases with
  | Ok items => PList items
  | Raise _ => phrases
  end.

(** The calls the loops make. *)
Definition is_loop_call (c : engine_call) : bool :=
  match c with
  | CallSearchFor _ _ | CallAnnot _ _ => true
  | _ => false
  end.

(** The log of a run that opened [pdf_bytes]: the opening, then calls of the
    loops only. *)
Definition opened_then_loops (pdf_bytes : list byte) (w : world) : Prop :=
  exists middle,
    w_log w = CallOpen pdf_bytes :: middle /\ forallb is_loop_call middle = true.

(* ====================================================================== *)
(** * Part II.  Theorems                                                   *)
(* ====================================================================== *)

(** ** The fallback classifier *)

(** Membership in a gazetteer set, one word at a time. *)
Ltac by_words H :=
  unfold emotion_positive, emotion_negative, movement_verbs, speech_verbs,
    thought_verbs, positive_adj, negative_adj, time_words, place_words in H;
  set_unfold in H; destruct_or!; subst; try (vm_compute; reflexivity).

(** Closed decidable facts, by evaluation. *)
Ltac by_decide := apply (bool_decide_unpack _); vm_compute; exact I.

Ltac open_cascade tok :=
  unfold get_semantic_fallback; cbv zeta;
  generalize (lower (lemma_ tok)) (pos_ tok).

Lemma fallback_first_match (tok : token) (code : string) :
  spec_first_match spec_gazetteer (lower (lemma_ tok)) = Some code ->
  get_semantic_fallback tok = code.
Proof.
  open_cascade tok. intros lemma pos. unfold spec_gazetteer, spec_first_match.
  repeat (case_decide; [by intros [= <-] |]). discriminate.
Qed.

Lemma fallback_no_match (tok : token) :
  spec_first_match spec_gazetteer (lower (lemma_ tok)) = None ->
  get_semantic_fallback tok
  = (if decide (pos_ tok = "NOUN") then "O2"
     else if decide (pos_ tok = "PROPN") then "Z3"
     else if decide (pos_ tok = "VERB") then "A3+"
     else if decide (pos_ tok = "ADJ") then "A5"
     else if decide (pos_ tok = "ADV") then "A13"
     else if decide (pos_ tok = "NUM") then "N1"
     else if decide (pos_ tok = "ADP") then "Z5"
     else if decide (pos_ tok = "DET") then "Z5"
     else if decide (pos_ tok = "PRON") then "Z8"
     else "Z99").
Proof.
  open_cascade tok. intros lemma pos. unfold spec_gazetteer, spec_first_match.
  repeat (case_decide; [discriminate |]). reflexivity.
Qed.

Lemma lower_Happy : lower "Happy" = lower "happy".
Proof. reflexivity. Qed.

(** C1.  A token whose lower-cased lemma is in a gazetteer set gets the code
    of the first set, in the order emotion+, emotion-, movement, speech,
    thought, adjective+, adjective-, time, place, that holds it, whatever its
    part of speech: the result is the first match over the nine rules of the
    specification, and set by set it is that set's code (for the positive
    adjectives, unless the positive emotions come first).  Lemma "love" with
    part of speech "VERB" gives "E1.1+", not "A3+", and "Happy" and "happy"
    give the same code. *)
Theorem fallback_gazetteer_first_match (tok : token) :
  let lemma := lower (lemma_ tok) in
  let code := get_semantic_fallback tok in
  (forall c, spec_first_match spec_gazetteer lemma = Some c -> code = c) /\
  (lemma ∈ emotion_positive -> code = "E1.1+") /\
  (lemma ∈ emotion_negative -> code = "E1.1-") /\
  (lemma ∈ movement_verbs -> code = "M1") /\
  (lemma ∈ speech_verbs -> code = "Q2.2") /\
  (lemma ∈ thought_verbs -> code = "X2.1") /\
  (lemma ∈ positive_adj -> lemma ∉ emotion_positive -> code = "A5.1+") /\
  (lemma ∈ negative_adj -> code = "A5.1-") /\
  (lemma ∈ time_words -> code = "T1") /\
  (lemma ∈ place_words -> code = "M7") /\
  (forall tok', lower (lemma_ tok') = lemma ->
     spec_first_match spec_gazetteer lemma <> None ->
     get_semantic_fallback tok' = code) /\
  get_semantic_fallback (mk_token "love" "VERB") = "E1.1+" /\
  get_semantic_fallback (mk_token "love" "VERB") <> "A3+" /\
  (forall pos, get_semantic_fallback (mk_token "Happy" pos)
               = get_semantic_fallback (mk_token "happy" pos)).
Proof.
  cbv zeta. split; [apply fallback_first_match |].
  split_and!.
  1-9: open_cascade tok; intros lemma pos H; try intros H'; by_words H.
  - exfalso. apply H'. unfold emotion_positive. set_solver.
  - intros tok' Heq Hsome.
    destruct (spec_first_match spec_gazetteer (lower (lemma_ tok))) as [c|] eqn:Hc;
      [| congruence].
    rewrite (fallback_first_match tok c Hc).
    apply fallback_first_match. rewrite Heq. exact Hc.
  - vm_compute. reflexivity.
  - vm_compute. discriminate.
  - intros pos. unfold get_semantic_fallback. simpl lemma_. rewrite lower_Happy.
    reflexivity.
Qed.

(** C1, on a token: the lemma "SAD" tagged as a noun. *)
Lemma fallback_gazetteer_first_match_witness :
  get_semantic_fallback (mk_token "SAD" "NOUN") = "E1.1-".
Proof.
  destruct (fallback_gazetteer_first_match (mk_token "SAD" "NOUN"))
    as (_ & _ & Hneg & _).
  apply Hneg. vm_compute. reflexivity.
Defined.

(** C2.  A token whose lower-cased lemma is in none of the nine sets gets
    the part-of-speech default: NOUN O2, PROPN Z3, VERB A3+, ADJ A5, ADV A13,
    NUM N1, ADP Z5, DET Z5, PRON Z8, and Z99 for any other tag; and on every
    token the classifier returns one of the listed codes. *)
Theorem fallback_pos_default (tok : token) :
  let lemma := lower (lemma_ tok) in
  let pos := pos_ tok in
  let code := get_semantic_fallback tok in
  (lemma ∉ emotion_positive -> lemma ∉ emotion_negative ->
   lemma ∉ movement_verbs -> lemma ∉ speech_verbs -> lemma ∉ thought_verbs ->
   lemma ∉ positive_adj -> lemma ∉ negative_adj ->
   lemma ∉ time_words -> lemma ∉ place_words ->
     (pos = "NOUN" -> code = "O2") /\
     (pos = "PROPN" -> code = "Z3") /\
     (pos = "VERB" -> code = "A3+") /\
     (pos = "ADJ" -> code = "A5") /\
     (pos = "ADV" -> code = "A13") /\
     (pos = "NUM" -> code = "N1") /\
     (pos = "ADP" -> code = "Z5") /\
     (pos = "DET" -> code = "Z5") /\
     (pos = "PRON" -> code = "Z8") /\
     (pos ∉ listed_pos -> code = "Z99") /\
     code ∈ pos_codes) /\
  code ∈ gazetteer_codes ++ pos_codes.
Proof.
  cbv zeta. split.
  - open_cascade tok. intros lemma pos H1 H2 H3 H4 H5 H6 H7 H8 H9.
    rewrite !decide_False by assumption.
    split_and!.
    1-9: intros ->; reflexivity.
    + intros Hn. unfold listed_pos in Hn.
      rewrite !decide_False; [reflexivity | intros ->; apply Hn; by_decide ..].
    + repeat case_decide; by_decide.
  - open_cascade tok. intros lemma pos.
    repeat case_decide; by_decide.
Qed.

(** C2, on a token: "table" is in no set. *)
Lemma fallback_pos_default_witness :
  get_semantic_fallback (mk_token "Table" "NOUN") = "O2"
  /\ get_semantic_fallback (mk_token "Table" "PUNCT") = "Z99".
Proof.
  split.
  - destruct (fallback_pos_default (mk_token "Table" "NOUN")) as [Hpos _].
    apply Hpos; [by_decide .. | reflexivity].
  - destruct (fallback_pos_default (mk_token "Table" "PUNCT")) as [Hpos _].
    apply Hpos; by_decide.
Defined.

(** C10.  "wonderful" is both a positive emotion and a positive adjective;
    the emotion test comes first, so the classifier answers "E1.1+", never
    "A5.1+", for that lemma under every part of speech. *)
Theorem fallback_wonderful (tok : token) :
  lower (lemma_ tok) = "wonderful" ->
  "wonderful" ∈ emotion_positive /\ "wonderful" ∈ positive_adj /\
  get_semantic_fallback tok = "E1.1+" /\
  get_semantic_fallback tok <> "A5.1+" /\
  spec_first_match [(positive_adj, "A5.1+")] (lower (lemma_ tok)) = Some "A5.1+".
Proof.
  intros Hl. split_and!.
  - unfold emotion_positive. set_solver.
  - unfold positive_adj. set_solver.
  - unfold get_semantic_fallback. cbv zeta. rewrite Hl. reflexivity.
  - unfold get_semantic_fallback. cbv zeta. rewrite Hl. vm_compute. discriminate.
  - rewrite Hl. reflexivity.
Qed.

(** C10, on a token: "Wonderful" tagged as an adjective. *)
Lemma fallback_wonderful_witness :
  get_semantic_fallback (mk_token "Wonderful" "ADJ") = "E1.1+".
Proof.
  apply (fallback_wonderful (mk_token "Wonderful" "ADJ")). reflexivity.
Defined.

(** ** The text annotator *)

(** A request whose JSON object carries a text on which the pipeline
    succeeds is answered with the full analysis. *)
Lemma analyze_text_ok (hp : bool) (nlp : pyobj -> result (list token))
    (kv : list (string * pyobj)) (s : string) (doc : list token) :
  dict_lookup "text" kv = Some (PStr s) ->
  nlp (PStr s) = Ok doc ->
  analyze_text hp nlp (Ok (PDict kv))
  = Jsonify (analysis_result hp (map (token_data hp) doc)
               (default (PStr "unnamed") (dict_lookup "corpus_name" kv))) 200.
Proof.
  intros Htext Hnlp. unfold analyze_text, analyze_body, text_missing.
  destruct kv as [| item kv']; [discriminate |].
  cbn [rbind py_truthy negb py_contains py_getitem py_get py_len].
  rewrite Htext. cbn [rbind negb py_len]. rewrite Hnlp. reflexivity.
Qed.

(** The three outcomes of the handler. *)
Lemma analyze_text_cases (hp : bool) (nlp : pyobj -> result (list token))
    (gj : result pyobj) :
  (exists data, gj = Ok data /\ text_missing data = Ok true /\
     analyze_text hp nlp gj = Jsonify (error_body "No text provided") 400)
  \/ (exists e, analyze_body hp nlp gj = Raise e /\
        analyze_text hp nlp gj = Jsonify (error_body (exn_str e)) 500)
  \/ (exists data text corpus_name doc,
        gj = Ok data /\ text_missing data = Ok false /\
        py_getitem "text" data = Ok text /\ nlp text = Ok doc /\
        analyze_text hp nlp gj
        = Jsonify (analysis_result hp (map (token_data hp) doc) corpus_name) 200).
Proof.
  unfold analyze_text, analyze_body.
  destruct gj as [data | e]; cbn [rbind]; [| right; left; eauto].
  destruct (text_missing data) as [[|] | e] eqn:Hmiss; cbn [rbind];
    [left; eauto | | right; left; eauto].
  destruct (py_getitem "text" data) as [text | e] eqn:Hget; cbn [rbind];
    [| right; left; eauto].
  destruct (py_get "corpus_name" (PStr "unnamed") data) as [corpus | e];
    cbn [rbind]; [| right; left; eauto].
  destruct (py_len text) as [n | e]; cbn [rbind]; [| right; left; eauto].
  destruct (nlp text) as [doc | e] eqn:Hnlp; cbn [rbind]; [| right; left; eauto].
  right; right. exists data, text, corpus, doc. auto.
Qed.

(** C4.  The category reported for a token: with the tagger active, the
    first candidate when the token has one and "Z99" when its candidate list
    is empty; with the tagger inactive, what the fallback classifier says.
    It is the "semantic" field of the token's record, and the records of a
    successful analysis are those of the pipeline's tokens, in order. *)
Theorem annotator_semantic_category (tok : token) :
  (forall first rest,
     pymusas_tags tok = AttrSet (Some (first :: rest)) ->
     primary_semantic true tok = first) /\
  (pymusas_tags tok = AttrSet (Some []) -> primary_semantic true tok = "Z99") /\
  primary_semantic false tok = get_semantic_fallback tok /\
  (forall hp,
     py_getitem "semantic" (token_data hp tok)
     = Ok (PStr (primary_semantic hp tok))) /\
  (forall hp nlp kv s doc,
     dict_lookup "text" kv = Some (PStr s) -> nlp (PStr s) = Ok doc ->
     In tok doc ->
     exists corpus_name,
       analyze_text hp nlp (Ok (PDict kv))
       = Jsonify (analysis_result hp (map (token_data hp) doc) corpus_name) 200
       /\ In (token_data hp tok) (map (token_data hp) doc)).
Proof.
  split_and!.
  - intros first rest Htags. unfold primary_semantic, hasattr_pymusas_tags.
    rewrite Htags. reflexivity.
  - intros Htags. unfold primary_semantic, hasattr_pymusas_tags.
    rewrite Htags. reflexivity.
  - reflexivity.
  - reflexivity.
  - intros hp nlp kv s doc Htext Hnlp Hin. eexists. split.
    + apply (analyze_text_ok hp nlp kv s doc Htext Hnlp).
    + apply in_map. exact Hin.
Qed.

(** C4, on tokens: ranked candidates, and none. *)
Lemma annotator_semantic_category_witness :
  primary_semantic true
    (Token "bank" "NOUN" "NN" "nsubj" 1 "bank" false false
           (AttrSet (Some ["I1.1"; "W3"]))) = "I1.1"
  /\ primary_semantic true
       (Token "zzz" "X" "XX" "dep" 0 "zzz" false false (AttrSet (Some []))) = "Z99".
Proof.
  split.
  - destruct (annotator_semantic_category
                (Token "bank" "NOUN" "NN" "nsubj" 1 "bank" false false
                       (AttrSet (Some ["I1.1"; "W3"])))) as (Hfirst & _).
    apply (Hfirst "I1.1" ["W3"]). reflexivity.
  - destruct (annotator_semantic_category
                (Token "zzz" "X" "XX" "dep" 0 "zzz" false false
                       (AttrSet (Some [])))) as (_ & Hnone & _).
    apply Hnone. reflexivity.
Defined.

(** C5, as worded, fails twice.  A body that is the JSON number 5 has no
    "text" key, yet the membership test on it raises and the answer is 500,
    not 400; and a request that carries a text is answered 500, not 200, when
    the pipeline refuses the text (here: longer than the pipeline allows). *)
Lemma analyze_status_counterexample :
  analyze_text false (stub_nlp 1000000) (Ok (PInt 5))
  = Jsonify (error_body "argument of type 'int' is not iterable") 500
  /\ analyze_text false (stub_nlp 3) (Ok (PDict [("text", PStr "long text")]))
     = Jsonify (error_body "[E088] Text exceeds maximum length") 500.
Proof. split; reflexivity. Qed.

(** C5, amended.  The handler answers 400, with the body "No text
    provided", when [get_json] gives no body ([None]) or a JSON object
    without the "text" key, and for a JSON object only then; in terms of the
    code, exactly when its own test [text_missing] holds.  A JSON object that
    carries a text on which the pipeline succeeds is answered 200 with
    [num_tokens] the length of the token list; when the pipeline gives no
    tokens for the empty text, the list is empty and [num_tokens] is 0. *)
Theorem analyze_text_status (hp : bool) (nlp : pyobj -> result (list token))
    (gj : result pyobj) :
  let resp := analyze_text hp nlp gj in
  (status_code resp = 400%Z <->
     exists data, gj = Ok data /\ text_missing data = Ok true) /\
  (status_code resp = 400%Z -> resp = Jsonify (error_body "No text provided") 400) /\
  (gj = Ok PNone -> status_code resp = 400%Z) /\
  (forall kv, gj = Ok (PDict kv) ->
     (status_code resp = 400%Z <-> dict_lookup "text" kv = None)) /\
  (forall kv s doc,
     gj = Ok (PDict kv) -> dict_lookup "text" kv = Some (PStr s) ->
     nlp (PStr s) = Ok doc ->
     exists body tokens,
       resp = Jsonify body 200 /\
       py_getitem "tokens" body = Ok (PList tokens) /\
       py_getitem "num_tokens" body = Ok (PInt (Z.of_nat (length tokens))) /\
       tokens = map (token_data hp) doc /\
       length tokens = length doc) /\
  (forall kv,
     gj = Ok (PDict kv) -> dict_lookup "text" kv = Some (PStr "") ->
     nlp (PStr "") = Ok [] ->
     exists body,
       resp = Jsonify body 200 /\
       py_getitem "tokens" body = Ok (PList []) /\
       py_getitem "num_tokens" body = Ok (PInt 0)).
Proof.
  cbv zeta.
  assert (H400 : status_code (analyze_text hp nlp gj) = 400%Z <->
                 exists data, gj = Ok data /\ text_missing data = Ok true).
  { destruct (analyze_text_cases hp nlp gj)
      as [(data & Hgj & Hmiss & Hresp)
         | [(e & Hbody & Hresp)
           | (data & text & corpus & doc & Hgj & Hmiss & _ & _ & Hresp)]];
      rewrite Hresp; cbn [status_code].
    - split; eauto.
    - split; [discriminate |].
      intros (data & Hgj & Hmiss). subst gj. unfold analyze_body in Hbody.
      cbn [rbind] in Hbody. rewrite Hmiss in Hbody. discriminate.
    - split; [discriminate |].
      intros (data' & Hgj' & Hmiss'). congruence. }
  split_and!.
  - exact H400.
  - intros Hst.
    destruct (analyze_text_cases hp nlp gj)
      as [(data & _ & _ & Hresp)
         | [(e & _ & Hresp) | (data & text & corpus & doc & _ & _ & _ & _ & Hresp)]];
      rewrite Hresp in Hst |- *; cbn [status_code] in Hst;
      [reflexivity | discriminate ..].
  - intros ->. reflexivity.
  - intros kv ->. rewrite H400. split.
    + intros (data & [= <-] & Hmiss). unfold text_missing in Hmiss.
      destruct kv as [| item kv']; [reflexivity |].
      cbn [py_truthy negb py_contains rbind] in Hmiss.
      destruct (dict_lookup "text" (item :: kv')); [discriminate | reflexivity].
    + intros Hnone. eexists. split; [reflexivity |]. unfold text_missing.
      destruct kv as [| item kv']; [reflexivity |].
      cbn [py_truthy negb py_contains rbind]. rewrite Hnone. reflexivity.
  - intros kv s doc -> Htext Hnlp.
    rewrite (analyze_text_ok hp nlp kv s doc Htext Hnlp).
    eexists _, _. split_and!; try reflexivity. apply length_map.
  - intros kv -> Htext Hnlp.
    rewrite (analyze_text_ok hp nlp kv "" [] Htext Hnlp).
    eexists. split_and!; reflexivity.
Qed.

(** C5 amended, on requests: the empty text, and a body without the key. *)
Lemma analyze_text_status_witness :
  (exists body,
     analyze_text false (stub_nlp 1000000) (Ok (PDict [("text", PStr "")]))
     = Jsonify body 200 /\
     py_getitem "tokens" body = Ok (PList []) /\
     py_getitem "num_tokens" body = Ok (PInt 0))
  /\ status_code (analyze_text false (stub_nlp 1000000)
                    (Ok (PDict [("corpus_name", PStr "c")]))) = 400%Z.
Proof.
  split.
  - destruct (analyze_text_status false (stub_nlp 1000000)
                (Ok (PDict [("text", PStr "")]))) as (_ & _ & _ & _ & _ & Hempty).
    apply (Hempty [("text", PStr "")]); reflexivity.
  - destruct (analyze_text_status false (stub_nlp 1000000)
                (Ok (PDict [("corpus_name", PStr "c")]))) as (_ & _ & _ & Hobj & _).
    apply (Hobj [("corpus_name", PStr "c")]); reflexivity.
Defined.

(** ** The handler monad *)

Lemma bind_ok {A B} (m : H A) (k : A -> H B) (w w2 : world) (b : B) :
  bind m k w = (Ok b, w2) ->
  exists a w1, m w = (Ok a, w1) /\ k a w1 = (Ok b, w2).
Proof.
  unfold bind. destruct (m w) as [[a | e] w1]; [eauto | discriminate].
Qed.

Lemma lift_ok {A} (r : result A) (w w1 : world) (a : A) :
  lift r w = (Ok a, w1) -> r = Ok a /\ w1 = w.
Proof. unfold lift. intros [= -> ->]. auto. Qed.

Lemma bind_raise {A B} (m : H A) (k : A -> H B) (w w2 : world) (e : exn) :
  bind m k w = (Raise e, w2) ->
  m w = (Raise e, w2)
  \/ exists a w1, m w = (Ok a, w1) /\ k a w1 = (Raise e, w2).
Proof.
  unfold bind. destruct (m w) as [[a | e'] w1]; [eauto |].
  intros [= -> ->]. left. reflexivity.
Qed.

Lemma lift_raise {A} (r : result A) (w w1 : world) (e : exn) :
  lift r w = (Raise e, w1) -> r = Raise e /\ w1 = w.
Proof. unfold lift. intros [= -> ->]. auto. Qed.

Lemma hoare_ret {A} (P : A -> world -> Prop) (Qe : world -> Prop) (a : A) :
  hoare (P a) (ret a) P Qe.
Proof. intros w Hw. exact Hw. Qed.

Lemma hoare_lift {A} (P : world -> Prop) (r : result A) :
  hoare P (lift r) (fun _ => P) P.
Proof. intros w Hw. unfold lift. destruct r; exact Hw. Qed.

Lemma hoare_raise {A} (P : world -> Prop) (Q : A -> world -> Prop) (e : exn) :
  hoare P (raise e) Q P.
Proof. intros w Hw. exact Hw. Qed.

Lemma hoare_bind {A B} (P : world -> Prop) (m : H A) (Q : A -> world -> Prop)
    (k : A -> H B) (Q' : B -> world -> Prop) (Qe : world -> Prop) :
  hoare P m Q Qe ->
  (forall a, hoare (Q a) (k a) Q' Qe) ->
  hoare P (bind m k) Q' Qe.
Proof.
  intros Hm Hk w Hw. unfold bind. specialize (Hm w Hw).
  destruct (m w) as [[a | e] w1]; [apply (Hk a w1 Hm) | exact Hm].
Qed.

Lemma hoare_weaken {A} (P P' : world -> Prop) (m : H A)
    (Q Q' : A -> world -> Prop) (Qe Qe' : world -> Prop) :
  hoare P m Q Qe ->
  (forall w, P' w -> P w) -> (forall a w, Q a w -> Q' a w) ->
  (forall w, Qe w -> Qe' w) ->
  hoare P' m Q' Qe'.
Proof.
  intros Hm HP HQ HQe w Hw. specialize (Hm w (HP w Hw)).
  destruct (m w) as [[a | e] w1]; auto.
Qed.

(** A loop keeps what each turn keeps. *)
Lemma hoare_for_each {A} (I : world -> Prop) (l : list A) (body : A -> H unit) :
  (forall x, In x l -> hoare I (body x) (fun _ => I) I) ->
  hoare I (for_each l body) (fun _ => I) I.
Proof.
  induction l as [| x l IH]; intros Hbody.
  - apply (hoare_ret (fun _ => I)).
  - cbn [for_each]. eapply hoare_bind.
    + apply Hbody. left. reflexivity.
    + intros u. apply IH. intros y Hy. apply Hbody. right. exact Hy.
Qed.

(** ** Runs of the highlighter that return *)

Lemma search_calls_app (l1 l2 : list engine_call) :
  search_calls (l1 ++ l2) = search_calls l1 ++ search_calls l2.
Proof. apply flat_map_app. Qed.

Lemma extends_by_nil (w : world) : extends_by [] w w.
Proof.
  unfold extends_by, spec_pass_calls, spec_pass_found, spec_pass_annots.
  cbn [flat_map]. rewrite !app_nil_r. auto.
Qed.

Lemma extends_by_app (p1 p2 : list pass) (w w1 w2 : world) :
  extends_by p1 w w1 -> extends_by p2 w1 w2 -> extends_by (p1 ++ p2) w w2.
Proof.
  unfold extends_by, spec_pass_calls, spec_pass_found, spec_pass_annots.
  intros (Hc1 & Hf1 & Ha1 & Ho1) (Hc2 & Hf2 & Ha2 & Ho2).
  rewrite !flat_map_app, Hc2, Hf2, Ha2, Ho2, Hc1, Hf1, Ha1, Ho1, <- !app_assoc.
  auto.
Qed.

Section HighlighterRuns.
Variable E : Engine.
Variable R : Runtime.

Lemma search_for_ok (n : nat) (page : Page E) (needle : string)
    (w w' : world) (found : list Rect) :
  search_for E n page needle w = (Ok found, w') ->
  page_search_for E page (w_annots w) needle = Ok found /\
  w_log w' = w_log w ++ [CallSearchFor n needle] /\
  w_found w' = w_found w ++ [(n, needle, found)] /\
  w_annots w' = w_annots w /\
  w_open_docs w' = w_open_docs w.
Proof.
  unfold search_for. cbn.
  destruct (page_search_for E page (w_annots w) needle) as [ms | e];
    [| discriminate].
  intros [= <- <-]. cbn. auto.
Qed.

Lemma highlight_instance_ok (stroke : rgb) (n : nat) (page : Page E)
    (p : string) (inst : Rect) (w w' : world) (u : unit) :
  highlight_instance E R stroke n page p inst w = (Ok u, w') ->
  search_calls (w_log w') = search_calls (w_log w) /\
  w_found w' = w_found w /\
  w_annots w'
  = w_annots w ++ [(n, Annot inst stroke opacity_value "CorBas" (quoted p)
                          (strftime_YmdHMS (now R (w_ticks w))))] /\
  w_open_docs w' = w_open_docs w.
Proof.
  unfold highlight_instance, bind, annot_step, datetime_now, finish_annot.
  cbn.
  repeat match goal with
         | |- context [annot_fault E page ?a ?c] =>
             destruct (annot_fault E page a c); [discriminate |]; cbn
         end.
  intros Heq. inversion Heq; subst w'. cbn.
  rewrite !search_calls_app. cbn. rewrite !app_nil_r. auto.
Qed.

Lemma highlight_instances_ok (stroke : rgb) (n : nat) (page : Page E)
    (p : string) (insts : list Rect) :
  forall (w w' : world) (u : unit),
    for_each insts (highlight_instance E R stroke n page p) w = (Ok u, w') ->
    search_calls (w_log w') = search_calls (w_log w) /\
    w_found w' = w_found w /\
    annot_view w' = annot_view w ++ map (fun inst => (n, inst, quoted p)) insts /\
    w_open_docs w' = w_open_docs w.
Proof.
  induction insts as [| inst insts IH]; intros w w' u Hrun.
  - cbn in Hrun. injection Hrun as _ <-. rewrite app_nil_r. auto.
  - cbn [for_each] in Hrun.
    apply bind_ok in Hrun as (u1 & w1 & Hone & Hrest).
    apply highlight_instance_ok in Hone as (Hc1 & Hf1 & Ha1 & Ho1).
    apply IH in Hrest as (Hc2 & Hf2 & Ha2 & Ho2).
    rewrite Hc2, Hf2, Ha2, Ho2, Hc1, Hf1, Ho1. split_and!; try reflexivity.
    unfold annot_view. rewrite Ha1, map_app. cbn. rewrite <- app_assoc.
    reflexivity.
Qed.

Lemma highlight_phrase_ok (stroke : rgb) (n : nat) (page : Page E)
    (p : string) (w w' : world) (u : unit) :
  highlight_phrase E R stroke n page (PStr p) w = (Ok u, w') ->
  exists q, pass_key q = (n, p) /\ pass_repeats q /\ extends_by [q] w w'.
Proof.
  cbn [highlight_phrase]. intros Hrun.
  apply bind_ok in Hrun as (m1 & w1 & Hs1 & Hrun).
  apply bind_ok in Hrun as (m2 & w2 & Hs2 & Hrun).
  apply search_for_ok in Hs1 as (He1 & Hl1 & Hf1 & Ha1 & Ho1).
  apply search_for_ok in Hs2 as (He2 & Hl2 & Hf2 & Ha2 & Ho2).
  apply highlight_instances_ok in Hrun as (Hc3 & Hf3 & Ha3 & Ho3).
  exists (Pass n p m1 m2). split_and!.
  - reflexivity.
  - unfold pass_repeats. cbn [pass_phrase pass_lowered pass_exact]. intros Heq.
    rewrite Heq in He1. rewrite Ha1 in He2. congruence.
  - unfold extends_by, spec_pass_calls, spec_pass_found, spec_pass_annots.
    cbn [flat_map pass_page pass_phrase pass_lowered pass_exact].
    rewrite !app_nil_r. split_and!.
    + rewrite Hc3, Hl2, Hl1, !search_calls_app. cbn. rewrite <- app_assoc.
      reflexivity.
    + rewrite Hf3, Hf2, Hf1, <- app_assoc. reflexivity.
    + rewrite Ha3. unfold annot_view. rewrite Ha2, Ha1. reflexivity.
    + congruence.
Qed.

Lemma highlight_phrases_ok (stroke : rgb) (n : nat) (page : Page E)
    (ps : list string) :
  forall (w w' : world) (u : unit),
    for_each (map PStr ps) (highlight_phrase E R stroke n page) w = (Ok u, w') ->
    exists passes,
      map pass_key passes = map (pair n) ps /\
      Forall pass_repeats passes /\
      extends_by passes w w'.
Proof.
  induction ps as [| p ps IH]; intros w w' u Hrun.
  - cbn in Hrun. injection Hrun as _ <-. exists []. split_and!; auto.
    apply extends_by_nil.
  - cbn [map for_each] in Hrun.
    apply bind_ok in Hrun as (u1 & w1 & Hone & Hrest).
    apply highlight_phrase_ok in Hone as (q & Hkey & Hrep & Hext).
    apply IH in Hrest as (passes & Hkeys & Hreps & Hexts).
    exists (q :: passes). split_and!.
    + cbn [map]. rewrite Hkey, Hkeys. reflexivity.
    + constructor; assumption.
    + apply (extends_by_app [q] passes w w1 w'); assumption.
Qed.

Lemma highlight_pages_ok (stroke : rgb) (pages : list (Page E))
    (ps : list string) (count : nat) :
  forall (first : nat) (w w' : world) (u : unit),
    for_each (seq first count)
             (highlight_page E R stroke pages (PList (map PStr ps))) w
    = (Ok u, w') ->
    exists passes,
      map pass_key passes
      = flat_map (fun page_num => map (pair page_num) ps) (seq first count) /\
      Forall pass_repeats passes /\
      extends_by passes w w'.
Proof.
  induction count as [| count IH]; intros first w w' u Hrun.
  - cbn in Hrun. injection Hrun as _ <-. exists []. split_and!; auto.
    apply extends_by_nil.
  - cbn [seq for_each] in Hrun.
    apply bind_ok in Hrun as (u1 & w1 & Hone & Hrest).
    unfold highlight_page in Hone.
    apply bind_ok in Hone as (page & w0 & Hpage & Hone).
    apply lift_ok in Hpage as (_ & ->).
    apply bind_ok in Hone as (items & w0 & Hitems & Hone).
    apply lift_ok in Hitems as ([= <-] & ->).
    apply highlight_phrases_ok in Hone as (p1 & Hk1 & Hr1 & He1).
    apply IH in Hrest as (p2 & Hk2 & Hr2 & He2).
    exists (p1 ++ p2). split_and!.
    + rewrite map_app, Hk1, Hk2. reflexivity.
    + apply Forall_app. auto.
    + apply (extends_by_app p1 p2 w w1 w'); assumption.
Qed.
End HighlighterRuns.

(** ** The handler, path by path *)

Section HighlightPaths.
Variable E : Engine.
Variable R : Runtime.
Variable req : highlight_request.

(** A run of the body that returns either stopped at one of the three
    guards, having done nothing, or went through every step. *)
Lemma highlight_body_returns (r : response) (w : world) :
  highlight_body E R req init_world = (Ok r, w) ->
  (w = init_world /\
     ((files_file req = None /\ r = Jsonify (error_body "No file provided") 400)
      \/ (exists file, files_file req = Some file /\ filename file = "" /\
            r = Jsonify (error_body "No file selected") 400)
      \/ (exists file phrases,
            files_file req = Some file /\ filename file <> "" /\
            json_loads R (default "[]" (form_phrases req)) = Ok phrases /\
            py_truthy phrases = false /\
            r = Jsonify (error_body "No phrases to highlight") 400)))
  \/ (exists file phrases stroke pages w2 data,
        files_file req = Some file /\ filename file <> "" /\
        json_loads R (default "[]" (form_phrases req)) = Ok phrases /\
        py_truthy phrases = true /\
        parse_color (default "#FFFF00" (form_color req)) = Ok stroke /\
        (exists n, py_len phrases = Ok n) /\
        fitz_open E (stream file) = Ok pages /\
        for_each (seq 0 (length pages))
                 (highlight_page E R stroke pages phrases)
                 (opened_world (stream file))
        = (Ok tt, w2) /\
        doc_write E pages (w_annots w2) = Ok data /\
        r = SendFile data "application/pdf"
              (rsplit_dot_head (filename file) +:+ "_highlighted.pdf") /\
        w = set_open_docs (pred (w_open_docs w2))
              (log_call CallClose (log_call CallWrite w2))).
Proof.
  unfold highlight_body. intros Hrun.
  destruct (files_file req) as [file |] eqn:Hfile.
  2:{ left. inversion Hrun. auto. }
  destruct (decide (filename file = "")) as [Hname | Hname].
  { left. inversion Hrun. split; [reflexivity |]. right; left. eauto. }
  apply bind_ok in Hrun as (phrases & w0 & Hjson & Hrun).
  apply lift_ok in Hjson as (Hjson & ->).
  destruct (py_truthy phrases) eqn:Htruthy; cbn [negb] in Hrun.
  2:{ left. inversion Hrun. split; [reflexivity |]. right; right.
      exists file, phrases. auto. }
  apply bind_ok in Hrun as (stroke & w0 & Hcolor & Hrun).
  apply lift_ok in Hcolor as (Hcolor & ->).
  apply bind_ok in Hrun as (n & w0 & Hlen & Hrun).
  apply lift_ok in Hlen as (Hlen & ->).
  apply bind_ok in Hrun as (pages & w1 & Hopen & Hrun).
  apply bind_ok in Hrun as ([] & w2 & Hloop & Hrun).
  apply bind_ok in Hrun as (data & w3 & Hwrite & Hrun).
  apply bind_ok in Hrun as ([] & w4 & Hclose & Hrun).
  unfold open_document in Hopen. cbn in Hopen.
  destruct (fitz_open E (stream file)) as [pages' | e] eqn:Hfitz; [| discriminate].
  inversion Hopen; subst pages' w1.
  unfold write_document in Hwrite. cbn in Hwrite.
  inversion Hwrite as [[Hdata Hw3]].
  unfold close_document in Hclose. inversion Hclose as [Hw4].
  inversion Hrun. subst.
  right. exists file, phrases, stroke, pages, w2, data. split_and!; eauto.
Qed.

(** A run of the body that raises got past the guards on the file; the
    exception is that of the first step that failed. *)
Lemma highlight_body_raises (e : exn) (w : world) :
  highlight_body E R req init_world = (Raise e, w) ->
  exists file,
    files_file req = Some file /\ filename file <> "" /\
    ((json_loads R (default "[]" (form_phrases req)) = Raise e /\ w = init_world)
     \/ exists phrases,
          json_loads R (default "[]" (form_phrases req)) = Ok phrases /\
          py_truthy phrases = true /\
          ((parse_color (default "#FFFF00" (form_color req)) = Raise e /\
            w = init_world)
           \/ exists stroke,
                parse_color (default "#FFFF00" (form_color req)) = Ok stroke /\
                ((py_len phrases = Raise e /\ w = init_world)
                 \/ (exists n, py_len phrases = Ok n) /\
                    ((fitz_open E (stream file) = Raise e /\
                      w = log_call (CallOpen (stream file)) init_world)
                 \/ exists pages,
                      fitz_open E (stream file) = Ok pages /\
                      (for_each (seq 0 (length pages))
                                (highlight_page E R stroke pages phrases)
                                (opened_world (stream file))
                       = (Raise e, w)
                       \/ exists w2,
                            for_each (seq 0 (length pages))
                                     (highlight_page E R stroke pages phrases)
                                     (opened_world (stream file))
                            = (Ok tt, w2) /\
                            doc_write E pages (w_annots w2) = Raise e /\
                            w = log_call CallWrite w2))))).
Proof.
  unfold highlight_body. intros Hrun.
  destruct (files_file req) as [file |] eqn:Hfile; [| discriminate].
  destruct (decide (filename file = "")) as [Hname | Hname]; [discriminate |].
  exists file. split_and!; [reflexivity | exact Hname |].
  apply bind_raise in Hrun as [Hjson | (phrases & w0 & Hjson & Hrun)].
  { apply lift_raise in Hjson as (Hjson & ->). left. auto. }
  apply lift_ok in Hjson as (Hjson & ->). right. exists phrases.
  destruct (py_truthy phrases) eqn:Htruthy; cbn [negb] in Hrun; [| discriminate].
  split_and!; [exact Hjson | reflexivity |].
  apply bind_raise in Hrun as [Hcolor | (stroke & w0 & Hcolor & Hrun)].
  { apply lift_raise in Hcolor as (Hcolor & ->). left. auto. }
  apply lift_ok in Hcolor as (Hcolor & ->). right. exists stroke.
  split; [exact Hcolor |].
  apply bind_raise in Hrun as [Hlen | (n & w0 & Hlen & Hrun)].
  { apply lift_raise in Hlen as (Hlen & ->). left. auto. }
  apply lift_ok in Hlen as (Hlen & ->). right. split; [eauto |].
  apply bind_raise in Hrun as [Hopen | (pages & w1 & Hopen & Hrun)].
  { unfold open_document in Hopen. cbn in Hopen.
    destruct (fitz_open E (stream file)); [discriminate |].
    injection Hopen as -> <-. left. auto. }
  unfold open_document in Hopen. cbn in Hopen.
  destruct (fitz_open E (stream file)) as [pages' | e'] eqn:Hfitz; [| discriminate].
  inversion Hopen; subst pages' w1. right. exists pages.
  split; [reflexivity |].
  apply bind_raise in Hrun as [Hloop | ([] & w2 & Hloop & Hrun)].
  { left. exact Hloop. }
  right. exists w2. split; [exact Hloop |].
  apply bind_raise in Hrun as [Hwrite | (data & w3 & Hwrite & Hrun)].
  { unfold write_document in Hwrite. cbn in Hwrite.
    inversion Hwrite as [[Hdata Hw]]. auto. }
  apply bind_raise in Hrun as [Hclose | ([] & w4 & Hclose & Hrun)];
    discriminate.
Qed.

Lemma highlight_pdf_returns (r : response) (w : world) :
  highlight_pdf E R req = (r, w) ->
  highlight_body E R req init_world = (Ok r, w)
  \/ exists e, highlight_body E R req init_world = (Raise e, w) /\
               r = Jsonify (error_body (exn_str e)) 500.
Proof.
  unfold highlight_pdf.
  destruct (highlight_body E R req init_world) as [[r0 | e] w0];
    intros [= <- <-]; eauto.
Qed.
End HighlightPaths.

(** ** C3: the two searches per page and phrase *)





(** ** C6: the requests refused with 400 *)

(** C6, as worded, fails on an uploaded file that is empty but has a name:
    the handler tests the file name, not the content, so the zero-byte
    "empty.pdf" reaches the engine, and the answer is 500, not 400. *)
Lemma highlight_bad_request_counterexample :
  highlight_pdf (stub_engine ["x"]) (stub_runtime [("P", PList [PStr "x"])])
    (HighlightRequest (Some (Upload "empty.pdf" [])) (Some "P") None)
  = (Jsonify (error_body "cannot open empty stream") 500,
     log_call (CallOpen []) init_world).
Proof. reflexivity. Qed.

(** C6, amended.  The handler answers 400 with an error body when the
    request has no file part, when the file part has an empty file name (no
    file selected), and when the decoded phrase list is empty (or any other
    empty value); in each case the world is untouched: no engine call was
    made, no document opened, no annotation added, and the response is not a
    PDF.  And 400 is answered in these cases only. *)
Theorem highlight_bad_request (E : Engine) (R : Runtime) (req : highlight_request) :
  let run := highlight_pdf E R req in
  (files_file req = None ->
     run = (Jsonify (error_body "No file provided") 400, init_world)) /\
  (forall file,
     files_file req = Some file -> filename file = "" ->
     run = (Jsonify (error_body "No file selected") 400, init_world)) /\
  (forall file phrases,
     files_file req = Some file -> filename file <> "" ->
     json_loads R (default "[]" (form_phrases req)) = Ok phrases ->
     phrases = PList [] \/ py_truthy phrases = false ->
     run = (Jsonify (error_body "No phrases to highlight") 400, init_world)) /\
  (status_code (fst run) = 400%Z ->
     snd run = init_world /\ w_log (snd run) = [] /\
     (exists msg, fst run = Jsonify (error_body msg) 400) /\
     (files_file req = None
      \/ (exists file, files_file req = Some file /\ filename file = "")
      \/ (exists file phrases,
            files_file req = Some file /\
            json_loads R (default "[]" (form_phrases req)) = Ok phrases /\
            py_truthy phrases = false))).
Proof.
  cbv zeta. split_and!.
  - intros Hfile. unfold highlight_pdf, highlight_body. rewrite Hfile. reflexivity.
  - intros file Hfile Hname. unfold highlight_pdf, highlight_body.
    rewrite Hfile, decide_True by assumption. reflexivity.
  - intros file phrases Hfile Hname Hjson Hempty.
    assert (Hfalse : py_truthy phrases = false)
      by (destruct Hempty as [-> | Hf]; [reflexivity | exact Hf]).
    unfold highlight_pdf, highlight_body.
    rewrite Hfile, decide_False by assumption.
    unfold bind, lift. rewrite Hjson, Hfalse. reflexivity.
  - intros Hst.
    destruct (highlight_pdf E R req) as [r w] eqn:Hrun. cbn [fst snd] in *.
    apply highlight_pdf_returns in Hrun as [Hbody | (e & _ & ->)];
      [| discriminate].
    apply highlight_body_returns in Hbody
      as [(-> & Hguard)
         | (file & phrases & stroke & pages & w2 & data & _ & _ & _ & _ & _
            & _ & _ & _ & _ & -> & _)]; [| discriminate].
    split_and!; [reflexivity | reflexivity | |].
    + destruct Hguard as [(_ & ->) | [(f & _ & _ & ->) | (f & p & _ & _ & _ & _ & ->)]];
        eauto.
    + destruct Hguard as [(Hnone & _) | [(f & Hf & Hn & _) | (f & p & Hf & _ & Hj & Ht & _)]];
        eauto 10.
Qed.

(** C6 amended, on a request: a named file with the phrase list "[]". *)
Lemma highlight_bad_request_witness :
  highlight_pdf (stub_engine ["x"]) (stub_runtime [])
    (HighlightRequest (Some (Upload "doc.pdf" [x25])) (Some "[]") None)
  = (Jsonify (error_body "No phrases to highlight") 400, init_world).
Proof.
  destruct (highlight_bad_request (stub_engine ["x"]) (stub_runtime [])
              (HighlightRequest (Some (Upload "doc.pdf" [x25])) (Some "[]") None))
    as (_ & _ & Hphrases & _).
  apply (Hphrases (Upload "doc.pdf" [x25]) (PList []));
    [reflexivity | discriminate | reflexivity | left; reflexivity].
Defined.

(** ** What the loops keep, on every path *)

Section LoopInvariant.
Variable E : Engine.
Variable R : Runtime.
Variable stroke : rgb.
Variable items : list pyobj.

(** [Inv] is a property of the world that no engine call other than
    [close] disturbs, and that adding an annotation in [good] keeps. *)
Variable Inv : world -> Prop.
Variable good : annot -> Prop.
Hypothesis Inv_log :
  forall w c, c <> CallClose -> Inv w -> Inv (log_call c w).
Hypothesis Inv_found : forall w f, Inv w -> Inv (set_found f w).
Hypothesis Inv_ticks : forall w n, Inv w -> Inv (set_ticks n w).
Hypothesis Inv_annots :
  forall w n a, good a -> Inv w -> Inv (set_annots (w_annots w ++ [(n, a)]) w).
Hypothesis good_built :
  forall phrase inst k,
    In (PStr phrase) items ->
    good (Annot inst stroke opacity_value "CorBas" (quoted phrase)
                (strftime_YmdHMS (now R k))).

Lemma search_for_keeps (n : nat) (page : Page E) (needle : string) :
  hoare Inv (search_for E n page needle) (fun _ => Inv) Inv.
Proof.
  intros w Hw. unfold search_for. cbn.
  destruct (page_search_for E page (w_annots w) needle).
  - apply Inv_found, Inv_log; [discriminate | exact Hw].
  - apply Inv_log; [discriminate | exact Hw].
Qed.

Lemma annot_step_keeps (n : nat) (page : Page E) (c : annot_call) :
  hoare Inv (annot_step E n page c) (fun _ => Inv) Inv.
Proof.
  intros w Hw. unfold annot_step. cbn.
  destruct (annot_fault E page (w_annots w) c);
    apply Inv_log; (discriminate || exact Hw).
Qed.

Lemma highlight_instance_keeps (n : nat) (page : Page E) (phrase : string)
    (inst : Rect) :
  In (PStr phrase) items ->
  hoare Inv (highlight_instance E R stroke n page phrase inst) (fun _ => Inv) Inv.
Proof.
  intros Hin. unfold highlight_instance.
  eapply hoare_bind; [apply annot_step_keeps | intros ?].
  eapply hoare_bind; [apply annot_step_keeps | intros ?].
  eapply hoare_bind; [apply annot_step_keeps | intros ?].
  eapply (hoare_bind Inv (datetime_now R)
            (fun t w => Inv w /\ exists k, t = now R k)).
  { intros w Hw. cbn. split; [apply Inv_ticks; exact Hw | eauto]. }
  intros t. cbv zeta.
  eapply (hoare_bind _ _ (fun _ w => Inv w /\ exists k, t = now R k)).
  { intros w [Hw Ht]. unfold annot_step. cbn.
    destruct (annot_fault E page (w_annots w) _);
      [| split; [| exact Ht]]; apply Inv_log; (discriminate || exact Hw). }
  intros u'.
  eapply (hoare_bind _ _ (fun _ w => Inv w /\ exists k, t = now R k)).
  { intros w [Hw Ht]. unfold annot_step. cbn.
    destruct (annot_fault E page (w_annots w) _);
      [| split; [| exact Ht]]; apply Inv_log; (discriminate || exact Hw). }
  intros u'' w [Hw (k & ->)]. cbn. apply Inv_annots; [| exact Hw].
  apply good_built. exact Hin.
Qed.

Lemma highlight_phrase_keeps (n : nat) (page : Page E) (phrase : pyobj) :
  In phrase items ->
  hoare Inv (highlight_phrase E R stroke n page phrase) (fun _ => Inv) Inv.
Proof.
  intros Hin.
  destruct phrase as [| b | z | f | s | l | kv];
    try (intros w Hw; exact Hw).
  cbn [highlight_phrase].
  eapply hoare_bind; [apply search_for_keeps | intros m1].
  eapply hoare_bind; [apply search_for_keeps | intros m2].
  apply hoare_for_each. intros inst _. apply highlight_instance_keeps. exact Hin.
Qed.

Lemma highlight_page_keeps (pages : list (Page E)) (phrases : pyobj) (n : nat) :
  py_iter phrases = Ok items ->
  hoare Inv (highlight_page E R stroke pages phrases n) (fun _ => Inv) Inv.
Proof.
  intros Hiter w Hw. unfold highlight_page, bind, lift.
  destruct (get_page E pages n) as [page | e]; [| exact Hw].
  rewrite Hiter.
  apply (hoare_for_each Inv items (highlight_phrase E R stroke n page));
    [| exact Hw].
  intros phrase Hin. apply highlight_phrase_keeps. exact Hin.
Qed.

Lemma highlight_loop_keeps (pages : list (Page E)) (phrases : pyobj)
    (page_nums : list nat) :
  py_iter phrases = Ok items ->
  hoare Inv (for_each page_nums (highlight_page E R stroke pages phrases))
        (fun _ => Inv) Inv.
Proof.
  intros Hiter. apply hoare_for_each. intros n _.
  apply highlight_page_keeps. exact Hiter.
Qed.
End LoopInvariant.

Lemma py_len_iter (v : pyobj) (n : nat) :
  py_len v = Ok n -> exists items, py_iter v = Ok items.
Proof. destruct v; cbn; intros Hlen; try discriminate; eauto. Qed.

Lemma hoare_run {A} (P : world -> Prop) (m : H A) (Q : A -> world -> Prop)
    (Qe : world -> Prop) (w w' : world) (r : result A) :
  hoare P m Q Qe -> P w -> m w = (r, w') ->
  match r with Ok a => Q a w' | Raise _ => Qe w' end.
Proof. intros Hm Hw Hrun. specialize (Hm w Hw). rewrite Hrun in Hm. exact Hm. Qed.

(** ** C7: what every annotation carries *)









(** On every path the annotations of the final world carry what the handler
    sets; the colour and the phrase list are those of the request. *)
Lemma highlight_annots_as_set (E : Engine) (R : Runtime) (req : highlight_request)
    (n : nat) (a : annot) :
  In (n, a) (w_annots (snd (highlight_pdf E R req))) ->
  exists phrases items stroke,
    json_loads R (default "[]" (form_phrases req)) = Ok phrases /\
    py_iter phrases = Ok items /\
    parse_color (default "#FFFF00" (form_color req)) = Ok stroke /\
    annot_as_set R stroke items a.
Proof.
  unfold highlight_pdf, highlight_body. intros Hin.
  destruct (files_file req) as [file |]; [| contradiction].
  destruct (decide (filename file = "")); [contradiction |].
  unfold bind at 1 in Hin. unfold lift at 1 in Hin.
  destruct (json_loads R (default "[]" (form_phrases req))) as [phrases | e]
    eqn:Hjson; [| contradiction].
  destruct (py_truthy phrases); cbn [negb] in Hin; [| contradiction].
  unfold bind at 1 in Hin. unfold lift at 1 in Hin.
  destruct (parse_color (default "#FFFF00" (form_color req))) as [stroke | e]
    eqn:Hcolor; [| contradiction].
  unfold bind at 1 in Hin. unfold lift at 1 in Hin.
  destruct (py_len phrases) as [len | e] eqn:Hlen; [| contradiction].
  destruct (py_len_iter phrases len Hlen) as [items Hiter].
  exists phrases, items, stroke. split_and!; try reflexivity; try assumption.
  match type of Hin with
  | In _ (w_annots (snd (match ?m init_world with _ => _ end))) =>
      destruct (m init_world) as [r w] eqn:Hrun;
      assert (Hw : annots_as_set R stroke items w)
  end.
  { assert (Hfin : match r with
                   | Ok _ => annots_as_set R stroke items w
                   | Raise _ => annots_as_set R stroke items w
                   end); [| destruct r; exact Hfin].
    eapply (hoare_run (annots_as_set R stroke items) _
                      (fun _ => annots_as_set R stroke items)
                      (annots_as_set R stroke items) init_world w r);
      [| constructor | exact Hrun].
    eapply (hoare_bind _ _ (fun _ => annots_as_set R stroke items)).
    { intros w0 Hw0. unfold open_document. cbn.
      destruct (fitz_open E (stream file)); exact Hw0. }
    intros pages. eapply (hoare_bind _ _ (fun _ => annots_as_set R stroke items)).
    { apply (highlight_loop_keeps E R stroke items
               (annots_as_set R stroke items) (annot_as_set R stroke items)).
      - intros w0 c _ Hw0. exact Hw0.
      - intros w0 f Hw0. exact Hw0.
      - intros w0 k Hw0. exact Hw0.
      - intros w0 k b Hb Hw0. unfold annots_as_set. cbn.
        apply Forall_app. split; [exact Hw0 | constructor; [exact Hb | constructor]].
      - intros phrase inst k Hphrase. unfold annot_as_set. cbn. eauto 10.
      - exact Hiter. }
    intros u. eapply (hoare_bind _ _ (fun _ => annots_as_set R stroke items)).
    { intros w0 Hw0. unfold write_document. cbn.
      destruct (doc_write E pages (w_annots w0)); exact Hw0. }
    intros data. eapply (hoare_bind _ _ (fun _ => annots_as_set R stroke items)).
    { intros w0 Hw0. exact Hw0. }
    intros u' w0 Hw0. exact Hw0. }
  unfold annots_as_set in Hw. rewrite List.Forall_forall in Hw.
  destruct r; apply (Hw (n, a) Hin).
Qed.



(** ** C9: the document on the exit paths *)

(** The document is open and has not been closed. *)
Lemma loop_keeps_document (E : Engine) (R : Runtime) (stroke : rgb)
    (pages : list (Page E)) (phrases : pyobj) (items : list pyobj)
    (page_nums : list nat) :
  py_iter phrases = Ok items ->
  hoare (fun w => w_open_docs w = 1 /\ ~ In CallClose (w_log w))
        (for_each page_nums (highlight_page E R stroke pages phrases))
        (fun _ w => w_open_docs w = 1 /\ ~ In CallClose (w_log w))
        (fun w => w_open_docs w = 1 /\ ~ In CallClose (w_log w)).
Proof.
  intros Hiter.
  apply (highlight_loop_keeps E R stroke items
           (fun w => w_open_docs w = 1 /\ ~ In CallClose (w_log w))
           (fun _ => True)); auto.
  intros w c Hc [Hopen Hlog]. cbn. split; [exact Hopen |].
  rewrite in_app_iff. intros [Hin | [Heq | []]]; [exact (Hlog Hin) | congruence].
Qed.

(** C9 fails on the code.  When the uploaded document was opened and the
    handler then ends in its [except] branch, the document is still open at
    exit and [close] was never called; only the path that returns the PDF
    closes it. *)
Theorem highlight_error_leaves_document_open (E : Engine) (R : Runtime)
    (req : highlight_request) (file : upload) (pages : list (Page E))
    (r : response) (w : world) :
  files_file req = Some file ->
  fitz_open E (stream file) = Ok pages ->
  highlight_pdf E R req = (r, w) ->
  In (CallOpen (stream file)) (w_log w) ->
  (status_code r = 500%Z -> w_open_docs w = 1 /\ ~ In CallClose (w_log w)) /\
  (status_code r = 200%Z -> w_open_docs w = 0 /\ In CallClose (w_log w)).
Proof.
  intros Hfile Hopen Hrun Hlog.
  assert (Hloop : forall stroke phrases n lr w2,
            py_len phrases = Ok n ->
            for_each (seq 0 (length pages))
                     (highlight_page E R stroke pages phrases)
                     (opened_world (stream file)) = (lr, w2) ->
            w_open_docs w2 = 1 /\ ~ In CallClose (w_log w2)).
  { intros stroke phrases n lr w2 Hlen Hloop.
    destruct (py_len_iter phrases n Hlen) as [items Hiter].
    pose proof (hoare_run _ _ _ _ (opened_world (stream file)) w2 lr
                  (loop_keeps_document E R stroke pages phrases items
                     (seq 0 (length pages)) Hiter)) as Hkeep.
    destruct lr; apply Hkeep; try exact Hloop;
      (split; [reflexivity | cbn; intros [[=] | []]]). }
  apply highlight_pdf_returns in Hrun as [Hbody | (e & Hbody & ->)].
  - apply highlight_body_returns in Hbody
      as [(-> & _)
         | (file' & phrases & stroke & pages' & w2 & data & Hfile' & _ & _ & _
            & _ & (n & Hlen) & Hopen' & Hrun & _ & -> & ->)]; [destruct Hlog |].
    rewrite Hfile in Hfile'. injection Hfile' as <-.
    rewrite Hopen in Hopen'. injection Hopen' as <-.
    destruct (Hloop stroke phrases n _ _ Hlen Hrun) as [Hdocs Hnoclose].
    split; [discriminate |]. intros _. cbn. rewrite Hdocs.
    split; [reflexivity |]. apply in_app_iff. right. left. reflexivity.
  - split; [| discriminate]. intros _.
    apply highlight_body_raises in Hbody
      as (file' & Hfile' & _
          & [(_ & ->)
            | (phrases & _ & _
               & [(_ & ->)
                 | (stroke & _
                    & [(_ & ->)
                      | ((n & Hlen)
                         & [(Hopen' & _)
                           | (pages' & Hopen'
                              & [Hrun | (w2 & Hrun & _ & ->)])])])])]);
      try (destruct Hlog; fail).
    + rewrite Hfile in Hfile'. injection Hfile' as <-. congruence.
    + rewrite Hfile in Hfile'. injection Hfile' as <-.
      rewrite Hopen in Hopen'. injection Hopen' as <-.
      exact (Hloop stroke phrases n _ _ Hlen Hrun).
    + rewrite Hfile in Hfile'. injection Hfile' as <-.
      rewrite Hopen in Hopen'. injection Hopen' as <-.
      destruct (Hloop stroke phrases n _ _ Hlen Hrun) as [Hdocs Hnoclose].
      split; [exact Hdocs |]. cbn. rewrite in_app_iff.
      intros [Hin | [[=] | []]]. exact (Hnoclose Hin).
Qed.

(** C9, on a run: the phrase list [" a", 5] on a one-page document.  The
    first phrase is highlighted, the second has no [lower]; the answer is
    500 and the document stays open. *)
Lemma highlight_error_leaves_document_open_witness :
  let run := highlight_pdf (stub_engine ["a a"])
               (stub_runtime [("P", PList [PStr " a"; PInt 5])])
               (HighlightRequest (Some (Upload "doc.pdf" [x25])) (Some "P") None) in
  fst run = Jsonify (error_body "'int' object has no attribute 'lower'") 500 /\
  w_open_docs (snd run) = 1 /\ ~ In CallClose (w_log (snd run)).
Proof.
  cbv zeta. split; [reflexivity |].
  eapply (highlight_error_leaves_document_open (stub_engine ["a a"])
            (stub_runtime [("P", PList [PStr " a"; PInt 5])])
            (HighlightRequest (Some (Upload "doc.pdf" [x25])) (Some "P") None)
            (Upload "doc.pdf" [x25]) ["a a"]).
  - reflexivity.
  - reflexivity.
  - apply surjective_pairing.
  - vm_compute. left. reflexivity.
  - reflexivity.
Defined.

(** ** C8: exceptions at the handler boundary *)

Section HighlightFailures.
Variable E : Engine.
Variable R : Runtime.
Variable req : highlight_request.
Variable file : upload.
Hypothesis Hfile : files_file req = Some file.
Hypothesis Hname : filename file <> "".


Variable phrases : pyobj.
Hypothesis Hjson : json_loads R (default "[]" (form_phrases req)) = Ok phrases.
Hypothesis Htruthy : py_truthy phrases = true.

Lemma highlight_color_raises (e : exn) :
  parse_color (default "#FFFF00" (form_color req)) = Raise e ->
  highlight_pdf E R req = (Jsonify (error_body (exn_str e)) 500, init_world).
Proof.
  intros Hcolor. unfold highlight_pdf, highlight_body.
  rewrite Hfile, decide_False by assumption.
  unfold bind at 1. unfold lift at 1. rewrite Hjson, Htruthy. cbn [negb].
  unfold bind at 1. unfold lift at 1. rewrite Hcolor. reflexivity.
Qed.

Variable stroke : rgb.
Variable len : nat.
Hypothesis Hcolor : parse_color (default "#FFFF00" (form_color req)) = Ok stroke.
Hypothesis Hlen : py_len phrases = Ok len.

(** The handler from the point where the document is opened. *)
Lemma highlight_pdf_from_open :
  highlight_pdf E R req
  = match (do pages <- open_document E (stream file);
           do _ <- for_each (seq 0 (length pages))
                            (highlight_page E R stroke pages phrases);
           do output_bytes <- write_document E pages;
           do _ <- close_document;
           ret (SendFile output_bytes "application/pdf"
                  (rsplit_dot_head (filename file) +:+ "_highlighted.pdf")))%H
          init_world
    with
    | (Ok r, w) => (r, w)
    | (Raise e, w) => (Jsonify (error_body (exn_str e)) 500, w)
    end.
Proof.
  unfold highlight_pdf, highlight_body.
  rewrite Hfile, decide_False by assumption.
  unfold bind at 1. unfold lift at 1. rewrite Hjson, Htruthy. cbn [negb].
  unfold bind at 1. unfold lift at 1. rewrite Hcolor.
  unfold bind at 1. unfold lift at 1. rewrite Hlen. reflexivity.
Qed.


Variable pages : list (Page E).
Hypothesis Hopen : fitz_open E (stream file) = Ok pages.


End HighlightFailures.


(** A failing turn fails the loop, with the same exception. *)
Lemma for_each_raises {A} (body : A -> H unit) (x : A) (l : list A)
    (w w' : world) (e : exn) :
  body x w = (Raise e, w') -> for_each (x :: l) body w = (Raise e, w').
Proof. intros Hbody. cbn [for_each]. unfold bind. rewrite Hbody. reflexivity. Qed.



(* ====================================================================== *)
(** * Part III.  Further properties of the handlers                      *)
(* ====================================================================== *)

(** ** Further properties of the fallback classifier *)

Lemma char_lower_idem (c : ascii) : char_lower (char_lower c) = char_lower c.
Proof. destruct c as [[] [] [] [] [] [] [] []]; reflexivity. Qed.

Lemma lower_idem (s : string) : lower (lower s) = lower s.
Proof.
  induction s as [| c s IH]; [reflexivity |].
  cbn [lower]. rewrite char_lower_idem, IH. reflexivity.
Qed.

(** X1.  The classifier sees a token only through its lower-cased lemma and
    its part of speech: two tokens that agree on both get the same code,
    whatever their text, tags and casing, and lower-casing the lemma
    beforehand changes nothing. *)
Theorem fallback_case_insensitive (tok tok' : token) :
  lower (lemma_ tok) = lower (lemma_ tok') ->
  pos_ tok = pos_ tok' ->
  get_semantic_fallback tok = get_semantic_fallback tok' /\
  get_semantic_fallback (mk_token (lower (lemma_ tok)) (pos_ tok'))
  = get_semantic_fallback tok.
Proof.
  intros Hlemma Hpos. unfold get_semantic_fallback. cbv zeta.
  cbn [lemma_ pos_ mk_token]. rewrite lower_idem, Hlemma, Hpos. split; reflexivity.
Qed.

Lemma fallback_case_insensitive_witness :
  get_semantic_fallback
    (Token "WORRIED" "ADJ" "JJ" "acomp" 2 "WoRRied" false false AttrUnset)
  = get_semantic_fallback (mk_token "worried" "ADJ").
Proof.
  apply (fallback_case_insensitive
           (Token "WORRIED" "ADJ" "JJ" "acomp" 2 "WoRRied" false false AttrUnset)
           (mk_token "worried" "ADJ")); reflexivity.
Defined.

Lemma first_match_some (rules : list (gset string * string)) (lemma code : string) :
  spec_first_match rules lemma = Some code ->
  exists words, In (words, code) rules /\ lemma ∈ words.
Proof.
  induction rules as [| [words c] rules IH]; [discriminate |].
  cbn [spec_first_match]. case_decide.
  - intros [= <-]. exists words. split; [left; reflexivity | assumption].
  - intros Hrest. destruct (IH Hrest) as (words' & Hin & Hmem).
    exists words'. split; [right; exact Hin | exact Hmem].
Qed.

Lemma first_match_none (rules : list (gset string * string)) (lemma : string) :
  spec_first_match rules lemma = None ->
  forall words code, In (words, code) rules -> lemma ∉ words.
Proof.
  induction rules as [| [words c] rules IH]; [intros _ ? ? [] |].
  cbn [spec_first_match]. case_decide; [discriminate |].
  intros Hrest words' code [[= <- <-] | Hin]; [assumption | eauto].
Qed.

(** When every rule that holds the lemma gives the same code, the order of
    the rules does not matter. *)
Lemma first_match_agree (rules : list (gset string * string)) (lemma code : string) :
  (forall words c, In (words, c) rules -> lemma ∈ words -> c = code) ->
  (exists words, In (words, code) rules /\ lemma ∈ words) ->
  spec_first_match rules lemma = Some code.
Proof.
  induction rules as [| [words c] rules IH]; intros Hall (words' & Hin & Hmem).
  - destruct Hin.
  - cbn [spec_first_match]. case_decide as Hdec.
    + f_equal. apply (Hall words c); [left; reflexivity | assumption].
    + apply IH.
      * intros w c' Hin' Hmem'. apply (Hall w c'); [right; exact Hin' | exact Hmem'].
      * destruct Hin as [[= -> ->] | Hin]; [contradiction | eauto].
Qed.

(** Apart from "wonderful", no word is in two gazetteer sets. *)
Lemma gazetteer_one_code (lemma : string) (w1 w2 : gset string) (c1 c2 : string) :
  lemma <> "wonderful" ->
  In (w1, c1) spec_gazetteer -> In (w2, c2) spec_gazetteer ->
  lemma ∈ w1 -> lemma ∈ w2 -> c1 = c2.
Proof.
  intros Hne H1 H2 Hm1 Hm2.
  assert (Hall : forall c,
            forallb (fun rule => implb (bool_decide (lemma ∈ fst rule))
                                       (String.eqb (snd rule) c))
                    spec_gazetteer = true -> c2 = c).
  { intros c Hall. rewrite forallb_forall in Hall. specialize (Hall _ H2).
    cbn [fst snd] in Hall. rewrite bool_decide_eq_true_2 in Hall by exact Hm2.
    apply String.eqb_eq in Hall. exact Hall. }
  unfold spec_gazetteer in H1. cbn [In] in H1.
  destruct H1 as [H1|[H1|[H1|[H1|[H1|[H1|[H1|[H1|[H1|[]]]]]]]]]];
    injection H1 as <- <-; by_words Hm1;
    try congruence; symmetry; apply Hall; vm_compute; reflexivity.
Qed.

(** X2.  The priority order of the nine gazetteer tests matters for the
    lemma "wonderful" only: for any other lemma, whatever order the nine
    rules are tried in, the first match is the code the classifier returns;
    for "wonderful" there is an order of the nine rules whose first match is
    not the classifier's code. *)
Theorem gazetteer_order_matters_for_wonderful_only
    (rules : list (gset string * string)) (tok : token) (code : string) :
  Permutation rules spec_gazetteer ->
  lower (lemma_ tok) <> "wonderful" ->
  spec_first_match rules (lower (lemma_ tok)) = Some code ->
  get_semantic_fallback tok = code /\
  spec_first_match spec_gazetteer (lower (lemma_ tok)) = Some code /\
  exists rules',
    Permutation rules' spec_gazetteer /\
    spec_first_match rules' "wonderful"
    <> Some (get_semantic_fallback (mk_token "wonderful" (pos_ tok))).
Proof.
  intros Hperm Hne Hfirst.
  assert (Hspec : spec_first_match spec_gazetteer (lower (lemma_ tok)) = Some code).
  { destruct (first_match_some _ _ _ Hfirst) as (words & Hin & Hmem).
    apply first_match_agree.
    - intros w c Hin' Hmem'.
      apply (gazetteer_one_code (lower (lemma_ tok)) w words c code Hne);
        [exact Hin' | | exact Hmem' | exact Hmem].
      apply (Permutation_in _ Hperm). exact Hin.
    - exists words. split; [| exact Hmem]. apply (Permutation_in _ Hperm). exact Hin. }
  split_and!.
  - apply fallback_first_match. exact Hspec.
  - exact Hspec.
  - exists (rev spec_gazetteer). split; [symmetry; apply Permutation_rev |].
    rewrite (fallback_first_match (mk_token "wonderful" (pos_ tok)) "E1.1+")
      by (vm_compute; reflexivity).
    vm_compute. discriminate.
Qed.

Lemma gazetteer_order_matters_for_wonderful_only_witness :
  get_semantic_fallback (mk_token "Office" "NOUN") = "M7".
Proof.
  apply (gazetteer_order_matters_for_wonderful_only (rev spec_gazetteer)
           (mk_token "Office" "NOUN") "M7").
  - symmetry. apply Permutation_rev.
  - vm_compute. discriminate.
  - vm_compute. reflexivity.
Defined.

(** ** Further properties of the text annotator *)

(** X3.  A successful analysis answers one record per token of the pipeline,
    in the pipeline's order; the record of a token has nine entries, eight of
    them copied from the token; the corpus name is echoed as sent, or is
    "unnamed" when the request has none, and the flag is the startup flag. *)
Theorem analysis_records_verbatim (hp : bool) (nlp : pyobj -> result (list token))
    (kv : list (string * pyobj)) (s : string) (doc : list token) :
  dict_lookup "text" kv = Some (PStr s) ->
  nlp (PStr s) = Ok doc ->
  exists body tokens,
    analyze_text hp nlp (Ok (PDict kv)) = Jsonify body 200 /\
    py_getitem "tokens" body = Ok (PList tokens) /\
    py_getitem "has_pymusas" body = Ok (PBool hp) /\
    py_getitem "corpus_name" body
    = Ok (match dict_lookup "corpus_name" kv with
          | Some name => name
          | None => PStr "unnamed"
          end) /\
    length tokens = length doc /\
    forall i tok,
      doc !! i = Some tok ->
      exists record,
        tokens !! i = Some record /\
        py_len record = Ok 9 /\
        py_getitem "word" record = Ok (PStr (text tok)) /\
        py_getitem "pos" record = Ok (PStr (pos_ tok)) /\
        py_getitem "tag" record = Ok (PStr (tag_ tok)) /\
        py_getitem "dep" record = Ok (PStr (dep_ tok)) /\
        py_getitem "head" record = Ok (PInt (head_i tok)) /\
        py_getitem "lemma" record = Ok (PStr (lemma_ tok)) /\
        py_getitem "is_stop" record = Ok (PBool (is_stop tok)) /\
        py_getitem "is_punct" record = Ok (PBool (is_punct tok)).
Proof.
  intros Htext Hnlp. rewrite (analyze_text_ok hp nlp kv s doc Htext Hnlp).
  eexists _, (map (token_data hp) doc). split_and!; try reflexivity.
  - apply length_map.
  - intros i tok Hi. exists (token_data hp tok). split.
    + rewrite list_lookup_fmap, Hi. reflexivity.
    + split_and!; reflexivity.
Qed.

Lemma analysis_records_verbatim_witness :
  exists body tokens,
    analyze_text false (stub_nlp 100)
      (Ok (PDict [("corpus_name", PInt 7); ("text", PStr "go home")]))
    = Jsonify body 200 /\
    py_getitem "corpus_name" body = Ok (PInt 7) /\
    py_getitem "tokens" body = Ok (PList tokens) /\ length tokens = 2.
Proof.
  destruct (analysis_records_verbatim false (stub_nlp 100)
              [("corpus_name", PInt 7); ("text", PStr "go home")] "go home"
              [mk_token "go" "X"; mk_token "home" "X"] eq_refl eq_refl)
    as (body & tokens & Hresp & Htokens & _ & Hname & Hlen & _).
  exists body, tokens. auto.
Defined.

(** X4.  A request whose "text" is null, a boolean or a number is answered
    500 with the [TypeError] of [len], whatever the pipeline is: the
    pipeline is not reached. *)
Theorem analyze_text_without_len (hp : bool) (nlp : pyobj -> result (list token))
    (kv : list (string * pyobj)) (v : pyobj) :
  dict_lookup "text" kv = Some v ->
  v = PNone \/ (exists b, v = PBool b) \/ (exists n, v = PInt n)
  \/ (exists f, v = PFloat f) ->
  analyze_text hp nlp (Ok (PDict kv))
  = Jsonify (error_body ("object of type '" +:+ py_type_name v
                         +:+ "' has no len()")) 500.
Proof.
  intros Htext Hv. unfold analyze_text, analyze_body, text_missing.
  destruct kv as [| item kv']; [discriminate |].
  cbn [rbind py_truthy negb py_contains py_getitem py_get py_len].
  rewrite Htext. cbn [rbind negb].
  destruct Hv as [-> | [(b & ->) | [(n & ->) | (f & ->)]]]; reflexivity.
Qed.

Lemma analyze_text_without_len_witness :
  analyze_text true (stub_nlp 100) (Ok (PDict [("text", PInt 5)]))
  = Jsonify (error_body "object of type 'int' has no len()") 500.
Proof.
  apply (analyze_text_without_len true (stub_nlp 100) [("text", PInt 5)] (PInt 5));
    [reflexivity | right; right; left; exists 5%Z; reflexivity].
Defined.

(** X5.  A body that is not a JSON object never gets an analysis: the
    answer is 400 or 500 and does not depend on the pipeline.  An array is
    answered 400 unless one of its elements is the string "text", a string
    400 unless it contains "text", a number 400 when it is zero; the other
    cases are 500. *)
Theorem analyze_non_object_body (hp : bool) (nlp : pyobj -> result (list token))
    (data : pyobj) :
  (forall kv, data <> PDict kv) ->
  let status := status_code (analyze_text hp nlp (Ok data)) in
  (status = 400 \/ status = 500)%Z /\
  (forall hp' nlp', analyze_text hp' nlp' (Ok data) = analyze_text hp nlp (Ok data)) /\
  (forall l, data = PList l ->
     status = if existsb (is_str "text") l then 500%Z else 400%Z) /\
  (forall s, data = PStr s ->
     status = if str_contains "text" s then 500%Z else 400%Z) /\
  (forall n, data = PInt n -> status = if (n =? 0)%Z then 400%Z else 500%Z) /\
  (data = PNone \/ data = PBool false -> status = 400%Z) /\
  (data = PBool true -> status = 500%Z).
Proof.
  intros Hobj. cbv zeta. unfold analyze_text, analyze_body, text_missing.
  destruct data as [| b | n | f | s | l | kv].
  - cbn. split_and!; auto; try discriminate; intros; reflexivity.
  - destruct b; cbn; split_and!; auto; try discriminate;
      try (intros; reflexivity); intros [[=] | [=]]; reflexivity.
  - cbn [rbind py_truthy]. destruct (n =? 0)%Z eqn:Hn; cbn;
      split_and!; auto; try discriminate; try (intros; reflexivity);
      try (intros [[=] | [=]]);
      intros m [= <-]; rewrite Hn; reflexivity.
  - cbn [rbind py_truthy]. destruct (PrimFloat.eqb f 0); cbn;
      split_and!; auto; try discriminate; try (intros; reflexivity);
      intros [[=] | [=]].
  - cbn [rbind py_truthy].
    assert (Hempty : s = "" -> str_contains "text" s = false) by (intros ->; reflexivity).
    destruct (String.eqb s "") eqn:Hs; cbn [negb rbind py_contains].
    + apply String.eqb_eq in Hs. cbn.
      split_and!; auto; try discriminate; try (intros; reflexivity);
        try (intros [[=] | [=]]).
      intros s' [= <-]. rewrite (Hempty Hs). reflexivity.
    + destruct (str_contains "text" s) eqn:Hc; cbn;
        split_and!; auto; try discriminate; try (intros; reflexivity);
        try (intros [[=] | [=]]);
        intros s' [= <-]; rewrite Hc; reflexivity.
  - cbn [rbind py_truthy]. destruct l as [| x l].
    + cbn. split_and!; auto; try discriminate; try (intros; reflexivity);
        try (intros [[=] | [=]]).
      intros l' [= <-]. reflexivity.
    + cbn [negb rbind py_contains].
      destruct (existsb (is_str "text") (x :: l)) eqn:Hc; cbn;
        split_and!; auto; try discriminate; try (intros; reflexivity);
        try (intros [[=] | [=]]);
        intros l' [= <-]; rewrite Hc; reflexivity.
  - exfalso. apply (Hobj kv). reflexivity.
Qed.

Lemma analyze_non_object_body_witness :
  status_code (analyze_text true (stub_nlp 100)
                 (Ok (PList [PStr "some"; PStr "text"]))) = 500%Z
  /\ status_code (analyze_text true (stub_nlp 100) (Ok (PStr "plain words"))) = 400%Z.
Proof.
  split.
  - destruct (analyze_non_object_body true (stub_nlp 100)
                (PList [PStr "some"; PStr "text"]) ltac:(discriminate))
      as (_ & _ & Hlist & _).
    apply (Hlist [PStr "some"; PStr "text"]). reflexivity.
  - destruct (analyze_non_object_body true (stub_nlp 100) (PStr "plain words")
                ltac:(discriminate)) as (_ & _ & _ & Hstr & _).
    apply (Hstr "plain words"). reflexivity.
Defined.

(** ** Further properties of the colour field *)

Lemma lstrip_hash_other (c : ascii) (s : string) :
  c <> "#"%char -> lstrip_hash (String c s) = String c s.
Proof.
  destruct c as [[] [] [] [] [] [] [] []]; intros Hc;
    solve [reflexivity | exfalso; apply Hc; reflexivity].
Qed.

Lemma lstrip_hash_head (s : string) :
  lstrip_hash s = EmptyString
  \/ exists c t, lstrip_hash s = String c t /\ c <> "#"%char.
Proof.
  induction s as [| c s IH]; [left; reflexivity |].
  destruct (Ascii.eqb_spec c "#") as [-> | Hc].
  - exact IH.
  - right. exists c, s. split; [apply lstrip_hash_other; exact Hc | exact Hc].
Qed.

Lemma lstrip_hash_slice (s : string) :
  lstrip_hash (slice 0 6 (lstrip_hash s)) = slice 0 6 (lstrip_hash s).
Proof.
  destruct (lstrip_hash_head s) as [-> | (c & t & -> & Hc)]; [reflexivity |].
  unfold slice. cbn [Nat.sub String.substring]. apply lstrip_hash_other. exact Hc.
Qed.

(** X6.  Of the colour field only the first six characters after the
    leading '#' signs are read: any number of leading '#' (none included) and
    anything after the sixth character change nothing. *)
Theorem parse_color_reads_six (color : string) :
  parse_color (String "#" color) = parse_color color /\
  parse_color color = parse_color (slice 0 6 (lstrip_hash color)).
Proof.
  split.
  - reflexivity.
  - unfold parse_color. rewrite lstrip_hash_slice.
    destruct (lstrip_hash color) as [|c1 [|c2 [|c3 [|c4 [|c5 [|c6 t]]]]]];
      unfold slice; cbn [Nat.sub String.substring]; try reflexivity.
    destruct t; reflexivity.
Qed.

Lemma parse_color_short (color : string) :
  String.length (lstrip_hash color) <= 4 ->
  exists e, parse_color color = Raise e.
Proof.
  intros Hlen. unfold parse_color.
  destruct (py_int16 (slice 0 2 (lstrip_hash color))) as [r | e];
    cbn [rbind]; [| eauto].
  destruct (py_int16 (slice 2 4 (lstrip_hash color))) as [g | e];
    cbn [rbind]; [| eauto].
  destruct (lstrip_hash color) as [|c1 [|c2 [|c3 [|c4 [|c5 t]]]]];
    [eexists; reflexivity .. |].
  cbn [String.length] in Hlen. lia.
Qed.

(** X7.  A colour with fewer than five characters after the leading '#'
    signs, such as the three-digit shorthand, is refused: the request is
    answered 500 and the engine is never called, the document never
    opened. *)
Theorem highlight_short_color (E : Engine) (R : Runtime) (req : highlight_request)
    (file : upload) (phrases : pyobj) :
  files_file req = Some file -> filename file <> "" ->
  json_loads R (default "[]" (form_phrases req)) = Ok phrases ->
  py_truthy phrases = true ->
  String.length (lstrip_hash (default "#FFFF00" (form_color req))) <= 4 ->
  exists e,
    parse_color (default "#FFFF00" (form_color req)) = Raise e /\
    highlight_pdf E R req = (Jsonify (error_body (exn_str e)) 500, init_world).
Proof.
  intros Hfile Hname Hjson Htruthy Hlen.
  destruct (parse_color_short _ Hlen) as [e Hcolor]. exists e. split; [exact Hcolor |].
  apply (highlight_color_raises E R req file Hfile Hname phrases Hjson Htruthy e Hcolor).
Qed.

Lemma highlight_short_color_witness :
  highlight_pdf (stub_engine ["x"]) (stub_runtime [("P", PList [PStr "x"])])
    (HighlightRequest (Some (Upload "doc.pdf" [x25])) (Some "P") (Some "#FFF"))
  = (Jsonify (error_body "invalid literal for int() with base 16: ''") 500,
     init_world).
Proof.
  destruct (highlight_short_color (stub_engine ["x"])
              (stub_runtime [("P", PList [PStr "x"])])
              (HighlightRequest (Some (Upload "doc.pdf" [x25])) (Some "P")
                                (Some "#FFF"))
              (Upload "doc.pdf" [x25]) (PList [PStr "x"]))
    as (e & Hcolor & Hrun);
    [reflexivity | discriminate | reflexivity | reflexivity | cbn; lia |].
  rewrite Hrun. vm_compute in Hcolor. injection Hcolor as <-. reflexivity.
Defined.

Lemma substring_length_le (s : string) :
  forall n m, String.length (String.substring n m s) <= m.
Proof.
  induction s as [| c s IH]; intros n m.
  - destruct n, m; cbn; lia.
  - destruct n as [| n], m as [| m]; cbn [String.substring String.length].
    + lia.
    + specialize (IH 0 m). lia.
    + apply (IH n 0).
    + apply (IH n (S m)).
Qed.

(** A literal of at most two characters is a number from -15 to 255. *)
Lemma py_int16_short_range (s : string) (n : Z) :
  String.length s <= 2 -> py_int16 s = Ok n -> (-15 <= n <= 255)%Z.
Proof.
  assert (Hone :
    forallb (fun k =>
      match py_int16 (String (ascii_of_nat k) EmptyString) with
      | Ok n => (-15 <=? n)%Z && (n <=? 255)%Z
      | Raise _ => true
      end) (seq 0 256) = true) by (vm_compute; reflexivity).
  assert (Htwo :
    forallb (fun k1 => forallb (fun k2 =>
      match py_int16 (String (ascii_of_nat k1) (String (ascii_of_nat k2) EmptyString)) with
      | Ok n => (-15 <=? n)%Z && (n <=? 255)%Z
      | Raise _ => true
      end) (seq 0 256)) (seq 0 256) = true) by (vm_compute; reflexivity).
  intros Hlen Hint.
  destruct s as [| c1 [| c2 [| c3 s]]].
  - discriminate.
  - rewrite forallb_forall in Hone.
    specialize (Hone (nat_of_ascii c1)
                  ltac:(apply in_seq; pose proof (nat_ascii_bounded c1); lia)).
    rewrite ascii_nat_embedding, Hint in Hone. lia.
  - rewrite forallb_forall in Htwo.
    specialize (Htwo (nat_of_ascii c1)
                  ltac:(apply in_seq; pose proof (nat_ascii_bounded c1); lia)).
    rewrite forallb_forall in Htwo.
    specialize (Htwo (nat_of_ascii c2)
                  ltac:(apply in_seq; pose proof (nat_ascii_bounded c2); lia)).
    rewrite !ascii_nat_embedding, Hint in Htwo. lia.
  - cbn [String.length] in Hlen. lia.
Qed.

Lemma div255_range (n : Z) :
  (-15 <= n <= 255)%Z ->
  PrimFloat.leb (div255 n) 1 = true /\
  PrimFloat.leb (div255 (-15)) (div255 n) = true.
Proof.
  assert (Hall :
    forallb (fun k =>
      PrimFloat.leb (div255 (Z.of_nat k - 15)) 1
      && PrimFloat.leb (div255 (-15)) (div255 (Z.of_nat k - 15)))
      (seq 0 271) = true) by (vm_compute; reflexivity).
  intros Hn. rewrite forallb_forall in Hall.
  specialize (Hall (Z.to_nat (n + 15)) ltac:(apply in_seq; lia)).
  replace (Z.of_nat (Z.to_nat (n + 15)) - 15)%Z with n in Hall by lia.
  apply andb_prop in Hall. exact Hall.
Qed.

(** X8.  Whatever the colour field, an accepted colour has every channel at
    most 1.0 and at least -15/255, so no annotation ever carries a channel
    above 1.0; the lower bound is reached, by the colour "-f-f-f". *)
Theorem parse_color_channels (E : Engine) (R : Runtime) (req : highlight_request) :
  (forall color r g b,
     parse_color color = Ok (r, g, b) ->
     channel_ok r /\ channel_ok g /\ channel_ok b) /\
  (forall n a,
     In (n, a) (w_annots (snd (highlight_pdf E R req))) ->
     channel_ok (fst (fst (annot_stroke a))) /\
     channel_ok (snd (fst (annot_stroke a))) /\
     channel_ok (snd (annot_stroke a))) /\
  parse_color "-f-f-f" = Ok (div255 (-15), div255 (-15), div255 (-15)).
Proof.
  assert (Hparse : forall color r g b,
            parse_color color = Ok (r, g, b) ->
            channel_ok r /\ channel_ok g /\ channel_ok b).
  { intros color r g b. unfold parse_color, slice.
    destruct (py_int16 (String.substring 0 (2 - 0) (lstrip_hash color)))
      as [nr | e] eqn:Hr; cbn [rbind]; [| discriminate].
    destruct (py_int16 (String.substring 2 (4 - 2) (lstrip_hash color)))
      as [ng | e] eqn:Hg; cbn [rbind]; [| discriminate].
    destruct (py_int16 (String.substring 4 (6 - 4) (lstrip_hash color)))
      as [nb | e] eqn:Hb; cbn [rbind]; [| discriminate].
    intros [= <- <- <-].
    apply py_int16_short_range in Hr; [| apply substring_length_le].
    apply py_int16_short_range in Hg; [| apply substring_length_le].
    apply py_int16_short_range in Hb; [| apply substring_length_le].
    unfold channel_ok.
    pose proof (div255_range nr Hr). pose proof (div255_range ng Hg).
    pose proof (div255_range nb Hb). auto. }
  split_and!.
  - exact Hparse.
  - intros n a Hin.
    destruct (highlight_annots_as_set E R req n a Hin)
      as (phrases & items & stroke & _ & _ & Hcolor & Hstroke & _).
    rewrite Hstroke. destruct stroke as [[r g] b]. cbn [fst snd].
    apply (Hparse _ r g b Hcolor).
  - reflexivity.
Qed.

Lemma parse_color_channels_witness :
  channel_ok (div255 18) /\ channel_ok (div255 52) /\ channel_ok (div255 86).
Proof.
  destruct (parse_color_channels (stub_engine []) (stub_runtime [])
              (HighlightRequest None None None)) as (Hparse & _).
  apply (Hparse "#123456"). reflexivity.
Defined.

(** ** Further properties of the highlighter *)

Lemma before_last_dot_none (s : string) :
  has_dot s = false -> before_last_dot s = None.
Proof.
  induction s as [| c s IH]; [reflexivity |].
  cbn [has_dot before_last_dot]. intros Hdot.
  apply orb_false_elim in Hdot as [Hc Hs]. rewrite (IH Hs), Hc. reflexivity.
Qed.

Lemma before_last_dot_app (stem ext : string) :
  has_dot ext = false ->
  before_last_dot (stem +:+ "." +:+ ext) = Some stem.
Proof.
  intros Hext. induction stem as [| c stem IH].
  - change ("" +:+ "." +:+ ext) with (String "." ext).
    cbn [before_last_dot]. rewrite (before_last_dot_none ext Hext). reflexivity.
  - change (String c stem +:+ "." +:+ ext) with (String c (stem +:+ "." +:+ ext)).
    cbn [before_last_dot]. rewrite IH. reflexivity.
Qed.

(** X9.  The returned PDF is an attachment of type application/pdf whose
    name is the uploaded name with what follows its last dot replaced by
    "_highlighted.pdf": "report.v2.pdf" gives "report.v2_highlighted.pdf"; a
    name without a dot keeps all of it, so "report" gives
    "report_highlighted.pdf". *)
Theorem highlight_download_name (E : Engine) (R : Runtime) (req : highlight_request)
    (data : list byte) (mimetype name : string) (w : world) :
  highlight_pdf E R req = (SendFile data mimetype name, w) ->
  exists file,
    files_file req = Some file /\ mimetype = "application/pdf" /\
    (has_dot (filename file) = false ->
       name = filename file +:+ "_highlighted.pdf") /\
    (forall stem ext,
       filename file = stem +:+ "." +:+ ext -> has_dot ext = false ->
       name = stem +:+ "_highlighted.pdf").
Proof.
  intros Hrun.
  apply highlight_pdf_returns in Hrun as [Hbody | (e & _ & [=])].
  apply highlight_body_returns in Hbody
    as [(_ & [(_ & [=]) | [(f & _ & _ & [=]) | (f & p & _ & _ & _ & _ & [=])]])
       | (file & phrases & stroke & pages & w2 & data' & Hfile & _ & _ & _ & _
          & _ & _ & _ & _ & Hresp & _)].
  injection Hresp as -> -> ->.
  exists file. split_and!; [exact Hfile | reflexivity | |].
  - intros Hdot. unfold rsplit_dot_head.
    rewrite (before_last_dot_none _ Hdot). reflexivity.
  - intros stem ext Hname Hext. unfold rsplit_dot_head.
    rewrite Hname, (before_last_dot_app stem ext Hext). reflexivity.
Qed.

Lemma highlight_download_name_witness :
  "report.v2_highlighted.pdf" = "report.v2" +:+ "_highlighted.pdf".
Proof.
  destruct (highlight_download_name (stub_engine ["x"])
              (stub_runtime [("P", PList [PStr "x"])])
              (HighlightRequest (Some (Upload "report.v2.pdf" [x25])) (Some "P") None)
              [x61; x61] "application/pdf" "report.v2_highlighted.pdf"
              (snd (highlight_pdf (stub_engine ["x"])
                      (stub_runtime [("P", PList [PStr "x"])])
                      (HighlightRequest (Some (Upload "report.v2.pdf" [x25]))
                                        (Some "P") None))))
    as (file & Hfile & _ & _ & Hname); [vm_compute; reflexivity |].
  injection Hfile as <-. exact (Hname "report.v2" "pdf" eq_refl eq_refl).
Defined.



(** ** The creation dates *)

Section Stamps.
Variable E : Engine.
Variable R : Runtime.






End Stamps.



(** ** Runs in which no search finds anything *)

Section NothingFound.
Variable E : Engine.
Variable R : Runtime.
Variable stroke : rgb.
Variable pages : list (Page E).
Variable ps : list string.
Hypothesis nothing :
  forall page p,
    In page pages -> In p ps ->
    page_search_for E page [] (strip (lower p)) = Ok [] /\
    page_search_for E page [] p = Ok [].

Lemma highlight_phrase_nothing (n : nat) (page : Page E) (p : string) (w : world) :
  In page pages -> In p ps -> w_annots w = [] ->
  exists w',
    highlight_phrase E R stroke n page (PStr p) w = (Ok tt, w') /\
    w_annots w' = [] /\ w_ticks w' = w_ticks w.
Proof.
  intros Hpage Hp Hw. destruct (nothing page p Hpage Hp) as [Hlow Hexact].
  cbn [highlight_phrase]. unfold bind, search_for.
  change (w_annots (log_call (CallSearchFor n (strip (lower p))) w))
    with (w_annots w).
  rewrite Hw, Hlow. cbv beta iota zeta.
  match goal with
  | |- context [page_search_for E page ?a p] =>
      change a with (w_annots w); rewrite Hw, Hexact
  end.
  cbn. eexists. split; [reflexivity |]. cbn. auto.
Qed.

Lemma highlight_phrases_nothing (n : nat) (page : Page E) (qs : list string) :
  In page pages -> (forall p, In p qs -> In p ps) ->
  forall w, w_annots w = [] ->
  exists w',
    for_each (map PStr qs) (highlight_phrase E R stroke n page) w = (Ok tt, w') /\
    w_annots w' = [] /\ w_ticks w' = w_ticks w.
Proof.
  intros Hpage. induction qs as [| p qs IH]; intros Hsub w Hw.
  - exists w. auto.
  - destruct (highlight_phrase_nothing n page p w Hpage
                (Hsub p (or_introl eq_refl)) Hw) as (w1 & Hone & Ha1 & Ht1).
    destruct (IH (fun q Hq => Hsub q (or_intror Hq)) w1 Ha1)
      as (w2 & Hrest & Ha2 & Ht2).
    exists w2. cbn [map for_each]. unfold bind. rewrite Hone, Hrest.
    split_and!; [reflexivity | exact Ha2 | congruence].
Qed.

Lemma highlight_pages_nothing (count : nat) :
  forall first w,
    first + count <= length pages -> w_annots w = [] ->
    exists w',
      for_each (seq first count)
               (highlight_page E R stroke pages (PList (map PStr ps))) w
      = (Ok tt, w') /\
      w_annots w' = [] /\ w_ticks w' = w_ticks w.
Proof.
  induction count as [| count IH]; intros first w Hlen Hw.
  - exists w. auto.
  - destruct (lookup_lt_is_Some_2 pages first ltac:(lia)) as [page Hpage].
    assert (Hin : In page pages).
    { apply list_elem_of_In. apply list_elem_of_lookup. eauto. }
    destruct (highlight_phrases_nothing first page ps Hin (fun p Hp => Hp) w Hw)
      as (w1 & Hone & Ha1 & Ht1).
    destruct (IH (S first) w1 ltac:(lia) Ha1) as (w2 & Hrest & Ha2 & Ht2).
    exists w2. cbn [seq for_each]. unfold bind at 1.
    unfold highlight_page at 1. unfold bind at 1. unfold lift at 1.
    unfold get_page. rewrite Hpage. unfold bind at 1. unfold lift at 1.
    cbn [py_iter]. rewrite Hone, Hrest.
    split_and!; [reflexivity | exact Ha2 | congruence].
Qed.
End NothingFound.

Lemma spec_pass_keys_length (page_count : nat) (ps : list string) :
  length (spec_pass_keys page_count ps) = page_count * length ps.
Proof.
  unfold spec_pass_keys. generalize 0.
  induction page_count as [| k IH]; intros first; [reflexivity |].
  cbn [seq flat_map]. rewrite length_app, length_map, IH. reflexivity.
Qed.

Lemma spec_pass_calls_length (passes : list pass) :
  length (spec_pass_calls passes) = 2 * length passes.
Proof.
  unfold spec_pass_calls. induction passes as [| q passes IH]; [reflexivity |].
  cbn [flat_map app length]. rewrite IH. lia.
Qed.

(** X12.  When none of the searches finds anything, the handler still
    returns the PDF: the document written with no annotation, the clock never
    read, after two searches per page and phrase.  Phrases absent from the
    document are not an error. *)
Theorem highlight_nothing_found (E : Engine) (R : Runtime) (req : highlight_request)
    (file : upload) (ps : list string) (stroke : rgb) (pages : list (Page E))
    (data : list byte) :
  files_file req = Some file -> filename file <> "" ->
  json_loads R (default "[]" (form_phrases req)) = Ok (PList (map PStr ps)) ->
  ps <> [] ->
  parse_color (default "#FFFF00" (form_color req)) = Ok stroke ->
  fitz_open E (stream file) = Ok pages ->
  (forall page p,
     In page pages -> In p ps ->
     page_search_for E page [] (strip (lower p)) = Ok [] /\
     page_search_for E page [] p = Ok []) ->
  doc_write E pages [] = Ok data ->
  exists w,
    highlight_pdf E R req
    = (SendFile data "application/pdf"
         (rsplit_dot_head (filename file) +:+ "_highlighted.pdf"), w) /\
    w_annots w = [] /\ w_ticks w = 0 /\ w_open_docs w = 0 /\
    length (search_calls (w_log w)) = 2 * (length pages * length ps).
Proof.
  intros Hfile Hname Hjson Hps Hcolor Hopen Hnothing Hwrite.
  assert (Htruthy : py_truthy (PList (map PStr ps)) = true)
    by (destruct ps; [contradiction | reflexivity]).
  destruct (highlight_pages_nothing E R stroke pages ps Hnothing (length pages) 0
              (opened_world (stream file)) ltac:(lia) eq_refl)
    as (w2 & Hloop & Ha2 & Ht2).
  pose proof (highlight_pdf_from_open E R req file Hfile Hname _ Hjson Htruthy
                stroke (length (map PStr ps)) Hcolor eq_refl) as Hrun.
  rewrite Hrun. unfold bind at 1. unfold open_document. rewrite Hopen.
  change (set_open_docs _ (log_call (CallOpen (stream file)) init_world))
    with (opened_world (stream file)).
  cbv beta iota zeta. unfold bind at 1. rewrite Hloop.
  unfold bind at 1. unfold write_document.
  change (w_annots (log_call CallWrite w2)) with (w_annots w2).
  rewrite Ha2, Hwrite. cbv beta iota zeta. unfold bind, close_document, ret.
  eexists. split; [reflexivity |].
  apply highlight_pages_ok in Hloop as (passes & Hkeys & _ & Hcalls & _ & _ & Hdocs).
  unfold set_open_docs, log_call. cbn [w_annots w_ticks w_open_docs w_log].
  split_and!.
  - exact Ha2.
  - rewrite Ht2. reflexivity.
  - rewrite Hdocs. reflexivity.
  - rewrite !search_calls_app, Hcalls, !length_app, spec_pass_calls_length.
    rewrite <- (length_map pass_key passes), Hkeys.
    fold (spec_pass_keys (length pages) ps). rewrite spec_pass_keys_length.
    cbn. lia.
Qed.

Lemma highlight_nothing_found_witness :
  exists w,
    highlight_pdf (stub_engine ["first page"; "second page"])
      (stub_runtime [("P", PList [PStr "absent"; PStr "Missing"])])
      (HighlightRequest (Some (Upload "doc.pdf" [x25])) (Some "P") None)
    = (SendFile [] "application/pdf" "doc_highlighted.pdf", w) /\
    w_annots w = [] /\ length (search_calls (w_log w)) = 8.
Proof.
  destruct (highlight_nothing_found (stub_engine ["first page"; "second page"])
              (stub_runtime [("P", PList [PStr "absent"; PStr "Missing"])])
              (HighlightRequest (Some (Upload "doc.pdf" [x25])) (Some "P") None)
              (Upload "doc.pdf" [x25]) ["absent"; "Missing"] (1, 1, 0)%float
              ["first page"; "second page"] [])
    as (w & Hrun & Hannots & _ & _ & Hcalls);
    try reflexivity; try discriminate.
  - intros page p [<- | [<- | []]] [<- | [<- | []]]; split; reflexivity.
  - exists w. auto.
Defined.

(** ** Phrases that are not an array *)

(** X13.  A phrases field that decodes to a JSON string is highlighted
    character by character, and one that decodes to an object key by key:
    the handler does exactly what it does for the array of these items. *)
Theorem highlight_phrases_not_array (E : Engine) (R : Runtime)
    (req req' : highlight_request) (phrases : pyobj) :
  files_file req' = files_file req ->
  form_color req' = form_color req ->
  json_loads R (default "[]" (form_phrases req)) = Ok phrases ->
  json_loads R (default "[]" (form_phrases req')) = Ok (phrases_as_list phrases) ->
  (exists s, phrases = PStr s) \/ (exists kv, phrases = PDict kv) ->
  highlight_pdf E R req = highlight_pdf E R req' /\
  (forall s, phrases = PStr s -> phrases_as_list phrases = PList (chars s)) /\
  (forall kv, phrases = PDict kv ->
     phrases_as_list phrases = PList (map (fun item => PStr (fst item)) kv)).
Proof.
  intros Hfile Hcolor Hjson Hjson' Hshape.
  split; [| split; intros ? ->; reflexivity].
  unfold highlight_pdf, highlight_body. rewrite Hfile.
  destruct (files_file req) as [file |]; [| reflexivity].
  destruct (decide (filename file = "")); [reflexivity |].
  unfold bind, lift. rewrite Hjson, Hjson', Hcolor.
  destruct Hshape as [(s & ->) | (kv & ->)].
  - destruct s as [| c s]; [reflexivity |].
    assert (Htruthy : py_truthy (PStr (String c s)) = true).
    { destruct c as [[] [] [] [] [] [] [] []]; reflexivity. }
    rewrite Htruthy. unfold phrases_as_list. cbn [py_iter py_truthy negb chars].
    destruct (parse_color (default "#FFFF00" (form_color req))); reflexivity.
  - destruct kv as [| item kv]; [reflexivity |].
    unfold phrases_as_list. cbn [py_iter py_truthy negb map].
    destruct (parse_color (default "#FFFF00" (form_color req))); reflexivity.
Qed.

Lemma highlight_phrases_not_array_witness :
  highlight_pdf (stub_engine ["abc"])
    (stub_runtime [("S", PStr "ca"); ("L", PList [PStr "c"; PStr "a"])])
    (HighlightRequest (Some (Upload "doc.pdf" [x25])) (Some "S") None)
  = highlight_pdf (stub_engine ["abc"])
      (stub_runtime [("S", PStr "ca"); ("L", PList [PStr "c"; PStr "a"])])
      (HighlightRequest (Some (Upload "doc.pdf" [x25])) (Some "L") None).
Proof.
  apply (highlight_phrases_not_array (stub_engine ["abc"])
           (stub_runtime [("S", PStr "ca"); ("L", PList [PStr "c"; PStr "a"])])
           (HighlightRequest (Some (Upload "doc.pdf" [x25])) (Some "S") None)
           (HighlightRequest (Some (Upload "doc.pdf" [x25])) (Some "L") None)
           (PStr "ca")); try reflexivity.
  left. exists "ca". reflexivity.
Defined.

(** ** The phrase as the first search sees it *)











(** ** The order of the engine calls *)

Section LoopCalls.
Variable E : Engine.
Variable R : Runtime.
Variable stroke : rgb.
Variable pdf_bytes : list byte.

Lemma loop_call_keeps (c : engine_call) (w : world) :
  is_loop_call c = true -> (opened_then_loops pdf_bytes) w -> (opened_then_loops pdf_bytes) (log_call c w).
Proof.
  intros Hc (middle & Hlog & Hall). exists (middle ++ [c]). split.
  - cbn. rewrite Hlog. reflexivity.
  - rewrite forallb_app, Hall. cbn. rewrite Hc. reflexivity.
Qed.

Lemma search_for_calls (n : nat) (page : Page E) (needle : string) :
  hoare (opened_then_loops pdf_bytes) (search_for E n page needle) (fun _ => (opened_then_loops pdf_bytes)) (opened_then_loops pdf_bytes).
Proof.
  intros w Hw. unfold search_for. cbn.
  destruct (page_search_for E page (w_annots w) needle);
    apply (loop_call_keeps (CallSearchFor n needle) w eq_refl Hw).
Qed.

Lemma annot_step_calls (n : nat) (page : Page E) (c : annot_call) :
  hoare (opened_then_loops pdf_bytes) (annot_step E n page c) (fun _ => (opened_then_loops pdf_bytes)) (opened_then_loops pdf_bytes).
Proof.
  intros w Hw. unfold annot_step. cbn.
  destruct (annot_fault E page (w_annots w) c);
    apply (loop_call_keeps (CallAnnot n c) w eq_refl Hw).
Qed.

Lemma highlight_instance_calls (n : nat) (page : Page E) (phrase : string)
    (inst : Rect) :
  hoare (opened_then_loops pdf_bytes) (highlight_instance E R stroke n page phrase inst) (fun _ => (opened_then_loops pdf_bytes)) (opened_then_loops pdf_bytes).
Proof.
  unfold highlight_instance.
  eapply (hoare_bind _ _ (fun _ => (opened_then_loops pdf_bytes))); [apply annot_step_calls | intros ?].
  eapply (hoare_bind _ _ (fun _ => (opened_then_loops pdf_bytes))); [apply annot_step_calls | intros ?].
  eapply (hoare_bind _ _ (fun _ => (opened_then_loops pdf_bytes))); [apply annot_step_calls | intros ?].
  eapply (hoare_bind _ _ (fun _ => (opened_then_loops pdf_bytes))); [intros w Hw; exact Hw | intros t].
  cbv zeta.
  eapply (hoare_bind _ _ (fun _ => (opened_then_loops pdf_bytes))); [apply annot_step_calls | intros ?].
  eapply (hoare_bind _ _ (fun _ => (opened_then_loops pdf_bytes))); [apply annot_step_calls | intros ?].
  intros w Hw. exact Hw.
Qed.

Lemma highlight_page_calls (pages : list (Page E)) (phrases : pyobj) (n : nat) :
  hoare (opened_then_loops pdf_bytes) (highlight_page E R stroke pages phrases n) (fun _ => (opened_then_loops pdf_bytes)) (opened_then_loops pdf_bytes).
Proof.
  intros w Hw. unfold highlight_page, bind, lift.
  destruct (get_page E pages n) as [page | e]; [| exact Hw].
  destruct (py_iter phrases) as [items | e]; [| exact Hw].
  apply (hoare_for_each (opened_then_loops pdf_bytes) items (highlight_phrase E R stroke n page)); [| exact Hw].
  intros phrase _.
  destruct phrase as [| b | z | f | s | l | kv]; try (intros w0 Hw0; exact Hw0).
  cbn [highlight_phrase].
  eapply (hoare_bind _ _ (fun _ => (opened_then_loops pdf_bytes))); [apply search_for_calls | intros m1].
  eapply (hoare_bind _ _ (fun _ => (opened_then_loops pdf_bytes))); [apply search_for_calls | intros m2].
  apply hoare_for_each. intros inst _. apply highlight_instance_calls.
Qed.

Lemma highlight_loop_calls (pages : list (Page E)) (phrases : pyobj)
    (page_nums : list nat) (w w' : world) (r : result unit) :
  for_each page_nums (highlight_page E R stroke pages phrases) w = (r, w') ->
  (opened_then_loops pdf_bytes) w -> (opened_then_loops pdf_bytes) w'.
Proof.
  intros Hrun Hw.
  pose proof (hoare_run (opened_then_loops pdf_bytes) _ (fun _ => (opened_then_loops pdf_bytes)) (opened_then_loops pdf_bytes) w w' r
                (hoare_for_each (opened_then_loops pdf_bytes) page_nums _
                   (fun n _ => highlight_page_calls pages phrases n))
                Hw Hrun) as Hfin.
  destruct r; exact Hfin.
Qed.
End LoopCalls.

(** X15.  The engine is called in a fixed order on every path: nothing
    before the uploaded bytes are opened; after that only searches and
    annotation calls; the document is written once, only after the loops
    have finished, and closed only after it was written.  The log ends with
    write and close exactly when the answer is the PDF; an answer 400 comes
    with no call at all. *)
Theorem highlight_call_protocol (E : Engine) (R : Runtime) (req : highlight_request)
    (r : response) (w : world) :
  highlight_pdf E R req = (r, w) ->
  (w_log w = [] /\ status_code r <> 200%Z)
  \/ exists file middle tail,
       files_file req = Some file /\
       w_log w = CallOpen (stream file) :: middle ++ tail /\
       forallb is_loop_call middle = true /\
       ((tail = [CallWrite; CallClose] /\ status_code r = 200%Z)
        \/ ((tail = [CallWrite] \/ tail = []) /\ status_code r = 500%Z)).
Proof.
  intros Hrun.
  assert (Hopened : forall b, opened_then_loops b (opened_world b)).
  { intros b. exists []. split; reflexivity. }
  apply highlight_pdf_returns in Hrun as [Hbody | (e & Hbody & ->)].
  - apply highlight_body_returns in Hbody
      as [(-> & [(_ & ->) | [(f & _ & _ & ->) | (f & p & _ & _ & _ & _ & ->)]])
         | (file & phrases & stroke & pages & w2 & data & Hfile & _ & _ & _ & _
            & _ & _ & Hloop & _ & -> & ->)];
      [left; split; [reflexivity | discriminate] .. |].
    right.
    destruct (highlight_loop_calls E R stroke (stream file) pages phrases _ _ _ _
                Hloop (Hopened _)) as (middle & Hlog & Hall).
    exists file, middle, [CallWrite; CallClose]. split_and!; auto.
    cbn. rewrite Hlog. cbn. rewrite <- app_assoc. reflexivity.
  - apply highlight_body_raises in Hbody
      as (file & Hfile & _
          & [(_ & ->)
            | (phrases & _ & _
               & [(_ & ->)
                 | (stroke & _
                    & [(_ & ->)
                      | (_
                         & [(_ & ->)
                           | (pages & _
                              & [Hloop | (w2 & Hloop & _ & ->)])])])])]);
      try (left; split; [reflexivity | discriminate]); right.
    + exists file, [], []. split_and!; auto.
    + destruct (highlight_loop_calls E R stroke (stream file) pages phrases _ _ _ _
                  Hloop (Hopened _)) as (middle & Hlog & Hall).
      exists file, middle, []. rewrite app_nil_r. split_and!; auto.
    + destruct (highlight_loop_calls E R stroke (stream file) pages phrases _ _ _ _
                  Hloop (Hopened _)) as (middle & Hlog & Hall).
      exists file, middle, [CallWrite]. split_and!; auto.
      cbn. rewrite Hlog. reflexivity.
Qed.

Lemma highlight_call_protocol_witness :
  exists middle,
    w_log (snd (highlight_pdf (stub_engine ["a a"])
                  (stub_runtime [("P", PList [PStr " a"; PInt 5])])
                  (HighlightRequest (Some (Upload "doc.pdf" [x25])) (Some "P") None)))
    = CallOpen [x25] :: middle /\
    forallb is_loop_call middle = true.
Proof.
  destruct (highlight_call_protocol (stub_engine ["a a"])
              (stub_runtime [("P", PList [PStr " a"; PInt 5])])
              (HighlightRequest (Some (Upload "doc.pdf" [x25])) (Some "P") None)
              _ _ (surjective_pairing _))
    as [[Hlog _] | (file & middle & tail & Hfile & Hlog & Hall & Htail)].
  - vm_compute in Hlog. discriminate.
  - injection Hfile as <-.
    destruct Htail as [[-> Hst] | [Htail Hst]]; [vm_compute in Hst; discriminate |].
    destruct Htail as [-> | ->].
    + exfalso. vm_compute in Hlog. injection Hlog as Hlog.
      apply (f_equal (@rev engine_call)) in Hlog. rewrite rev_app_distr in Hlog.
      cbn in Hlog. discriminate.
    + exists middle. rewrite app_nil_r in Hlog. auto.
Defined.
